(** * substack_scraper: a shallow embedding of [substack_scraper.py]

    The script downloads the articles listed in a newsletter's sitemap and
    stores each of them as HTML and as Markdown.  This development embeds its
    functions as Rocq definitions — pure helpers as functions, [main] and the
    functions with effects in a state-and-exception monad over an explicit
    world (file system, standard output, browser session, network clock) —
    and settles the properties of the specification against them. *)

From Stdlib Require Import Ascii String List ZArith Lia.
From stdpp Require Import base tactics option list strings gmap pretty.

Local Open Scope string_scope.
Local Open Scope list_scope.

(** ** Python's [str] methods used by the script *)

Module PyStr.

(** [bool(s)]: a string is falsy exactly when it is empty. *)
Definition truthy (s : string) : bool :=
  match s with
  | EmptyString => false
  | String _ _ => true
  end.

(** [s.split(sep)] for a one-character separator.  The result is never
    empty: [''.split('/') == ['']]. *)
Fixpoint split (sep : ascii) (s : string) : list string :=
  match s with
  | EmptyString => [EmptyString]
  | String a s' =>
      if Ascii.eqb a sep then EmptyString :: split sep s'
      else match split sep s' with
           | [] => [String a EmptyString]
           | w :: ws => String a w :: ws
           end
  end.

(** [s.rstrip(c)] for a one-character set. *)
Fixpoint rstrip (c : ascii) (s : string) : string :=
  match s with
  | EmptyString => EmptyString
  | String a s' =>
      match rstrip c s' with
      | EmptyString => if Ascii.eqb a c then EmptyString else String a EmptyString
      | r => String a r
      end
  end.

(** [s.lstrip(c)] for a one-character set. *)
Fixpoint lstrip (c : ascii) (s : string) : string :=
  match s with
  | EmptyString => EmptyString
  | String a s' => if Ascii.eqb a c then lstrip c s' else s
  end.

(** [l[0]] and [l[-1]] on the result of a [split] (which is never empty;
    the default is not reachable there, see [split_nonempty]). *)
Definition item_first (l : list string) : string := List.hd EmptyString l.
Definition item_last (l : list string) : string := List.last l EmptyString.

(** [sep.join(l)]. *)
Fixpoint join (sep : string) (l : list string) : string :=
  match l with
  | [] => EmptyString
  | [x] => x
  | x :: rest => x +:+ sep +:+ join sep rest
  end.

(** [c in s] *)
Fixpoint contains (c : ascii) (s : string) : bool :=
  match s with
  | EmptyString => false
  | String a s' => Ascii.eqb a c || contains c s'
  end.

(** [s.startswith(c)] and [s.endswith(c)] for one character. *)
Definition startswith (c : ascii) (s : string) : bool :=
  match s with
  | String a _ => Ascii.eqb a c
  | EmptyString => false
  end.

Fixpoint endswith (c : ascii) (s : string) : bool :=
  match s with
  | EmptyString => false
  | String a EmptyString => Ascii.eqb a c
  | String _ s' => endswith c s'
  end.

(** [c * n] *)
Fixpoint repeat_char (c : ascii) (n : nat) : string :=
  match n with
  | O => EmptyString
  | S k => String c (repeat_char c k)
  end.

End PyStr.

(** ** [pathlib.Path] (POSIX flavour)

    A path is its tuple of parts, as [PurePosixPath.parts] gives it: an
    absolute path starts with the part ["/"]; empty components and ["."]
    components are dropped when a string is parsed. *)

Abbreviation Path := (list string).

Module PyPath.

Definition keep_part (s : string) : bool :=
  negb (String.eqb s "" || String.eqb s ".").

(** [Path(s)] *)
Definition of_string (s : string) : Path :=
  (if PyStr.startswith "/" s then ["/"] else []) ++
  List.filter keep_part (PyStr.split "/" s).

Definition is_absolute (p : Path) : bool :=
  match p with
  | root :: _ => String.eqb root "/"
  | [] => false
  end.

(** [p / s]: an absolute right operand replaces the left one. *)
Definition joinpath (p : Path) (s : string) : Path :=
  let q := of_string s in
  if is_absolute q then q else p ++ q.

(** [str(p)] *)
Definition to_string (p : Path) : string :=
  match p with
  | [] => "."
  | root :: rest =>
      if String.eqb root "/" then "/" +:+ PyStr.join "/" rest
      else PyStr.join "/" p
  end.

(** [p.parent] *)
Definition parent (p : Path) : Path :=
  match p with
  | [] => []
  | [root] => if String.eqb root "/" then p else []
  | _ => List.removelast p
  end.

End PyPath.

Notation "p // s" := (PyPath.joinpath p s) (at level 40, left associativity).

(** ** The program's constants and enumeration *)

Definition SITEMAP_STRING : string := "sitemap.xml".
Definition OUTPUT_FILE : string := "articles.json".
Definition TIMEOUT_SECONDS : Z := 10.
(** 0.3 seconds; delays are kept in milliseconds. *)
Definition SLEEP_SECONDS : Z := 300.

(** [class OutputOption(enum.Enum)]; [value] is the member's value and the
    list [OutputOption_members] is the iteration order of [for o in
    OutputOption] (definition order). *)
Inductive OutputOption := HTML | MD.

Definition value (o : OutputOption) : string :=
  match o with
  | HTML => "html"
  | MD => "md"
  end.

Definition OutputOption_members : list OutputOption := [HTML; MD].

(** ** [make_file_path] *)

Definition make_file_path (url lastmod : string) (base_dir : Path)
    (output_option : OutputOption) : Path :=
  let date_part :=
    if PyStr.truthy lastmod then PyStr.item_first (PyStr.split "T" lastmod)
    else "" in
  let base_name := PyStr.item_last (PyStr.split "/" (PyStr.rstrip "/" url)) in
  let base_name :=
    if PyStr.truthy date_part then date_part +:+ "_" +:+ base_name
    else base_name in
  let ext := value output_option in
  base_dir // (base_name +:+ ("." +:+ ext)).

(** The two local values of [make_file_path], named so that statements can
    speak of them: the date part of a timestamp and the last path segment of
    an address. *)
Definition date_part (lastmod : string) : string :=
  if PyStr.truthy lastmod then PyStr.item_first (PyStr.split "T" lastmod)
  else "".

Definition last_path_segment (url : string) : string :=
  PyStr.item_last (PyStr.split "/" (PyStr.rstrip "/" url)).

(** What [make_file_path] puts in front of the segment: the date part and an
    underscore, or nothing when the date part is empty. *)
Definition date_prefix (lastmod : string) : string :=
  if PyStr.truthy (date_part lastmod) then date_part lastmod +:+ "_" else "".

(** A date part as ISO timestamps have it: not empty, without underscore and
    without slash. *)
Definition plain_date (d : string) : Prop :=
  d ≠ "" ∧ PyStr.contains "_" d = false ∧ PyStr.contains "/" d = false.

(** ** BeautifulSoup documents

    A parsed document is a tree of tags and strings.  Only what the two
    searches of the script look at is kept: the tag name and, for the HTML
    search by [class_], the list of CSS classes of the tag. *)

#[warnings="-register-all"] Inductive Node :=
| NavigableString (s : string)
| Tag (name : string) (classes : list string) (contents : list Node).

Module Soup.

(** [tag.descendants]: every node below [n], in document order. *)
Fixpoint descendants (n : Node) : list Node :=
  match n with
  | NavigableString _ => []
  | Tag _ _ cs => List.flat_map (fun c => c :: descendants c) cs
  end.

Definition tag_named (name : string) (n : Node) : bool :=
  match n with
  | Tag nm _ _ => String.eqb nm name
  | NavigableString _ => false
  end.

Definition has_class (cls : string) (n : Node) : bool :=
  match n with
  | Tag _ classes _ => List.existsb (String.eqb cls) classes
  | NavigableString _ => false
  end.

(** [tag.find_all(name)] *)
Definition find_all (name : string) (n : Node) : list Node :=
  List.filter (tag_named name) (descendants n).

(** [tag.find(name)]: the first match in document order, or [None]. *)
Definition find (name : string) (n : Node) : option Node :=
  List.find (tag_named name) (descendants n).

(** [tag.find(name, class_=cls)] *)
Definition find_class (name cls : string) (n : Node) : option Node :=
  List.find (fun d => tag_named name d && has_class cls d) (descendants n).

(** [tag.text]: the strings below the tag, concatenated. *)
Fixpoint text (n : Node) : string :=
  match n with
  | NavigableString s => s
  | Tag _ _ cs => List.fold_right (fun c acc => text c +:+ acc) "" cs
  end.

End Soup.

(** ** The outside world

    What the script gets from its libraries and from the network is a
    parameter of the model: the HTTP responses, the pages the browser
    renders, the two parsers, the serialisation of a tag, markdownify and the
    JSON encoder.  Network answers may change over time: they depend on the
    number of requests made so far. *)

Record Externals := {
  (** [requests.get(url, timeout=...)] at a given time: the body
      [resp.content], or [None] when the call raises. *)
  requests_get : nat -> string -> option string;
  (** [driver.get(url)] at a given time: the [driver.page_source] once the
      page has settled, or [None] when the navigation raises. *)
  driver_get : nat -> string -> option string;
  (** [BeautifulSoup(content, "xml")] and [BeautifulSoup(content, "lxml")] *)
  parse_xml : string -> Node;
  parse_lxml : string -> Node;
  (** [str(tag)] for a tag of a parsed document *)
  tag_str : Node -> string;
  (** [markdownify.markdownify(html, heading_style="ATX")] *)
  markdownify : string -> string;
  (** [json.dumps(results, indent=2)] for a list of url/lastmod records *)
  json_dumps : list (string * string) -> string;
}.

Inductive exn :=
| UnboundLocalError (name : string)
| AttributeError (msg : string)
| RequestException (url : string)
| WebDriverException (url : string)
| ValueError (msg : string)
| OSError (path : string).

Inductive Session := NoSession | SessionOpen | SessionClosed.

(** The mutable world: regular files with their content, directories, the
    lines printed so far, the browser session, and the number of network
    requests made so far. *)
Record World := mkWorld {
  files : gmap Path string;
  dirs : gset Path;
  stdout : list string;
  session : Session;
  clock : nat;
}.

Definition with_files (f : gmap Path string) (w : World) : World :=
  mkWorld f (dirs w) (stdout w) (session w) (clock w).
Definition with_dirs (d : gset Path) (w : World) : World :=
  mkWorld (files w) d (stdout w) (session w) (clock w).
Definition with_stdout (o : list string) (w : World) : World :=
  mkWorld (files w) (dirs w) o (session w) (clock w).
Definition with_session (s : Session) (w : World) : World :=
  mkWorld (files w) (dirs w) (stdout w) s (clock w).
Definition with_clock (n : nat) (w : World) : World :=
  mkWorld (files w) (dirs w) (stdout w) (session w) n.

(** ** The monad of the script: state and exceptions

    A raised exception keeps the world as it was when it was raised: nothing
    in the script catches an exception or undoes an effect. *)

Inductive outcome (A : Type) :=
| Returned (a : A)
| Raised (e : exn).
Arguments Returned {A} a.
Arguments Raised {A} e.

Definition M (A : Type) : Type := World -> outcome A * World.

#[export] Instance M_ret : MRet M := fun A a w => (Returned a, w).
#[export] Instance M_bind : MBind M := fun A B k m w =>
  match m w with
  | (Returned a, w') => k a w'
  | (Raised e, w') => (Raised e, w')
  end.

Definition raise {A} (e : exn) : M A := fun w => (Raised e, w).
Definition modify (f : World -> World) : M unit := fun w => (Returned tt, f w).

(** [for x in l: body(x)] *)
Fixpoint for_each {A} (l : list A) (body : A -> M unit) : M unit :=
  match l with
  | [] => mret tt
  | x :: rest => body x ;; for_each rest body
  end.

(** [print(line)] *)
Definition print (line : string) : M unit :=
  modify (fun w => with_stdout (stdout w ++ [line]) w).

(** Reading a local variable that may not have been assigned. *)
Definition read_local {A} (name : string) (v : option A) : M A :=
  match v with
  | Some a => mret a
  | None => raise (UnboundLocalError name)
  end.

(** [time.sleep(delay)]; the delay is kept in milliseconds.  Only its sign
    matters: a negative delay raises. *)
Definition sleep (delay : Z) : M unit :=
  if (delay <? 0)%Z then raise (ValueError "sleep length must be non-negative")
  else mret tt.

(** ** The file system operations the script performs

    Files and directories are recorded under their path as [pathlib] holds
    it (part by part, [".."] parts kept): a file is found under the path it
    was written with, and two spellings of one file are kept apart.  There
    are no symbolic links.  Whether a path leads to a directory is decided
    as the operating system does, following the path part by part, a [".."]
    part leading to the parent directory.  A step fails only for the reasons
    written below (no permissions, no full disk). *)

Module FS.

(** The non-empty prefixes of a path: the path and its ancestors. *)
Definition ancestors_and_self (p : Path) : list Path :=
  List.map (fun n => take n p) (seq 1 (length p)).

(** A directory recorded under the path as written; the current directory
    and the root always are. *)
Definition dir_recorded (w : World) (p : Path) : bool :=
  match p with
  | [] => true
  | [root] => String.eqb root "/" || bool_decide (p ∈ dirs w)
  | _ => bool_decide (p ∈ dirs w)
  end.

(** The parent of the directory a path without detours leads to: the root is
    its own parent, and above the current directory the path grows by
    [".."]. *)
Definition up (cur : Path) : Path :=
  match List.rev cur with
  | [] => [".."]
  | c :: _ =>
      if String.eqb c "/" then cur
      else if String.eqb c ".." then cur ++ [".."]
      else List.removelast cur
  end.

Definition norm_step (cur : Path) (c : string) : Path :=
  if String.eqb c ".." then up cur else cur ++ [c].

(** The path without detours that leads where [p] leads. *)
Definition normal (p : Path) : Path := List.fold_left norm_step p [].

(** The directory at the end of the path [d] (a path without detours) is
    there: the current directory, the root and the directories above the
    current directory always are, another one when it is recorded under
    some path that leads to it. *)
Definition dir_present (w : World) (d : Path) : bool :=
  match d with
  | [] => true
  | _ =>
      List.forallb (String.eqb "..") d
      || bool_decide (d = ["/"])
      || List.existsb (fun q => bool_decide (normal q = d)) (elements (dirs w))
  end.

(** Following the parts [rest] from the directory [cur]: every part on the
    way has to lead to a directory that is there. *)
Fixpoint follow (w : World) (cur rest : Path) : option Path :=
  match rest with
  | [] => Some cur
  | c :: rest' =>
      let next := norm_step cur c in
      if dir_present w next then follow w next rest' else None
  end.

(** The path leads to a directory: it is recorded as written, or following
    its parts from the current directory arrives at a directory. *)
Definition dir_exists (w : World) (p : Path) : bool :=
  dir_recorded w p || bool_decide (is_Some (follow w [] p)).

Definition is_file (w : World) (p : Path) : bool :=
  bool_decide (is_Some (files w !! p)).

(** [p.mkdir(parents=True, exist_ok=True)]: fails when a regular file is in
    the way, otherwise the directory and its missing ancestors exist
    afterwards. *)
Definition mkdir_parents (p : Path) : M unit := fun w =>
  if List.existsb (is_file w) (ancestors_and_self p)
  then (Raised (OSError (PyPath.to_string p)), w)
  else (Returned tt, with_dirs (dirs w ∪ list_to_set (ancestors_and_self p)) w).

(** [shutil.rmtree(p, ignore_errors=True)]: removes the directory and all
    below it; does nothing (the error is ignored) when [p] is not a
    directory. *)
Definition rmtree_ignore_errors (p : Path) : M unit := fun w =>
  if bool_decide (p ∈ dirs w)
  then (Returned tt,
        with_dirs (filter (fun d => ¬ p `prefix_of` d) (dirs w))
          (with_files (filter (fun kv => ¬ p `prefix_of` kv.1) (files w)) w))
  else (Returned tt, w).

(** [open(p, "w", encoding="utf-8")]: creates or truncates the file; fails
    when [p] is a directory or its parent directory does not exist. *)
Definition open_w (p : Path) : M unit := fun w =>
  if dir_exists w p || negb (dir_exists w (PyPath.parent p))
  then (Raised (OSError (PyPath.to_string p)), w)
  else (Returned tt, with_files (<[p := ""]> (files w)) w).

(** [f.write(s)] on the file opened at [p]: appends to what was written
    since the file was opened. *)
Definition write (p : Path) (s : string) : M unit :=
  modify (fun w => with_files (<[p := default "" (files w !! p) +:+ s]> (files w)) w).

End FS.

(** ** The functions of the script *)

Inductive Driver := ChromeDriver.

Section Script.

Variable ext : Externals.

(** One network interaction: the clock advances whether or not it fails. *)
Definition tick : M nat := fun w => (Returned (clock w), with_clock (S (clock w)) w).

Definition http_get (url : string) (timeout : Z) : M string :=
  now ← tick;
  match requests_get ext now url with
  | Some content => mret content
  | None => raise (RequestException url)
  end.

(** [driver.get(url)], giving the page source that [driver.page_source]
    reads afterwards. *)
Definition browser_get (driver : Driver) (url : string) : M string :=
  now ← tick;
  match driver_get ext now url with
  | Some page_source => mret page_source
  | None => raise (WebDriverException url)
  end.

(** [webdriver.Chrome()] opens the session (the browser is taken to start),
    the sign-in page is loaded, and [input] prints its prompt and waits for
    the operator. *)
Definition selenium_login : M Driver :=
  modify (with_session SessionOpen) ;;
  let driver := ChromeDriver in
  browser_get driver "https://substack.com/sign-in" ;;
  print "After you have logged in and see your account, press Enter here to continue..." ;;
  print "Continuing with scraping..." ;;
  mret driver.

(** [driver.quit()] *)
Definition driver_quit (driver : Driver) : M unit :=
  modify (with_session SessionClosed).

(** The body of the loop of [get_article_urls_and_lastmod]. *)
Definition sitemap_step (acc : list string * gmap string string) (url_tag : Node)
    : list string * gmap string string :=
  let '(urls, url_to_lastmod) := acc in
  let loc := Soup.find "loc" url_tag in
  let lastmod := Soup.find "lastmod" url_tag in
  match loc with
  | Some loc =>
      let url_text := Soup.text loc in
      (urls ++ [url_text],
       <[url_text := match lastmod with
                     | Some lastmod => Soup.text lastmod
                     | None => ""
                     end]> url_to_lastmod)
  | None => acc
  end.

(** The part of [get_article_urls_and_lastmod] after the document is
    parsed. *)
Definition read_sitemap (soup : Node) : list string * gmap string string :=
  List.fold_left sitemap_step (Soup.find_all "url" soup) ([], ∅).

Definition get_article_urls_and_lastmod (sitemap_url : string) (timeout : Z)
    : M (list string * gmap string string) :=
  content ← http_get sitemap_url timeout;
  let soup := parse_xml ext content in
  mret (read_sitemap soup).

Definition convert_to_md (html_content : string) : string :=
  markdownify ext html_content.

(** [str(x)] where [x] is a tag or [None]. *)
Definition str_optional_tag (x : option Node) : string :=
  match x with
  | Some tag => tag_str ext tag
  | None => "None"
  end.

Definition extract_article_html (soup : Node) : string :=
  str_optional_tag (Soup.find_class "div" "available-content" soup).

(** What [convert_to] can be called with: Python does not restrict the
    argument to members of [OutputOption]. *)
Inductive PyValue :=
| PyMember (o : OutputOption)
| PyStrValue (s : string)
| PyIntValue (z : Z)
| PyNone.

(** [str(v)], as the f-string of the error message formats it. *)
Definition py_str (v : PyValue) : string :=
  match v with
  | PyMember HTML => "OutputOption.HTML"
  | PyMember MD => "OutputOption.MD"
  | PyStrValue s => s
  | PyIntValue z => pretty z
  | PyNone => "None"
  end.

Definition convert_to (html_content : string) (output_option : PyValue) : M string :=
  match output_option with
  | PyMember HTML => mret html_content
  | PyMember MD => mret (convert_to_md html_content)
  | _ => raise (ValueError ("Unsupported output option: " +:+ py_str output_option))
  end.

Definition scrape_article_selenium (driver : option Driver) (url : string) (delay : Z)
    : M string :=
  match driver with
  | None => raise (AttributeError "'NoneType' object has no attribute 'get'")
  | Some driver =>
      page_source ← browser_get driver url;
      sleep delay ;;
      let soup := parse_lxml ext page_source in
      mret (extract_article_html soup)
  end.

Definition scrape_article_requests (url : string) (timeout : Z) : M string :=
  content ← http_get url timeout;
  let soup := parse_lxml ext content in
  mret (extract_article_html soup).

(** The string ["\n"]. *)
Definition newline : string := String (Ascii.ascii_of_nat 10) EmptyString.

Definition store_sitemap (path : Path) (urls : list string) : M unit :=
  FS.open_w path ;;
  for_each urls (fun url => FS.write path (url +:+ newline)) ;;
  print ("Saved URLs to " +:+ PyPath.to_string path).

(** The parsed command line. *)
Record Args := {
  arg_url : string;
  arg_sitemap : string;
  arg_paid : bool;
  arg_output : string;
  arg_delay : Z;
}.

(** The body of [for output_option in OutputOption] inside the loop over the
    URLs: the file is opened (and truncated) before the content is
    converted. *)
Definition write_representation (output_dir : Path) (url lastmod content : string)
    (output_option : OutputOption) : M unit :=
  let base_dir := output_dir // value output_option in
  let path := make_file_path url lastmod base_dir output_option in
  FS.open_w path ;;
  converted ← convert_to content (PyMember output_option);
  FS.write path converted.

(** The loop [for url in urls] of [main]; [results] is the list the loop
    appends to. *)
Fixpoint scrape_loop (args : Args) (driver : option Driver) (output_dir : Path)
    (url_to_lastmod : gmap string string) (urls : list string)
    (results : list (string * string)) : M (list (string * string)) :=
  match urls with
  | [] => mret results
  | url :: rest =>
      print ("Scraping " +:+ url) ;;
      content ← (if arg_paid args
                 then scrape_article_selenium driver url (arg_delay args)
                 else scrape_article_requests url TIMEOUT_SECONDS);
      if negb (PyStr.truthy content) then
        print ("No content found for " +:+ url +:+ ", skipping.") ;;
        scrape_loop args driver output_dir url_to_lastmod rest results
      else
        let lastmod := default "" (url_to_lastmod !! url) in
        for_each OutputOption_members
          (write_representation output_dir url lastmod content) ;;
        scrape_loop args driver output_dir url_to_lastmod rest
          (results ++ [(url, lastmod)])
  end.

(** [main].  Python's [main] returns [None]; the model returns the final
    value of the local list [results], the manifest that was serialised to
    [summary.json]. *)
Definition main (args : Args) : M (list (string * string)) :=
  let url := arg_url args in
  let url := PyStr.rstrip "/" url +:+ "/" +:+ PyStr.lstrip "/" (arg_sitemap args) in
  output_dir ←
    (if negb (String.eqb (arg_output args) ".") then
       let output_dir := PyPath.of_string (arg_output args) in
       FS.mkdir_parents output_dir ;;
       mret (Some output_dir)
     else mret None);
  driver ←
    (if arg_paid args then
       print "Paid mode enabled. Manual login required." ;;
       driver ← selenium_login;
       mret (Some driver)
     else
       print "Scraping free content only." ;;
       mret None);
  print "Fetching sitemap..." ;;
  '(urls, url_to_lastmod) ← get_article_urls_and_lastmod url TIMEOUT_SECONDS;
  print ("Found " +:+ pretty (length urls) +:+ " articles.") ;;
  output_dir ← read_local "output_dir" output_dir;
  store_sitemap (output_dir // "urls.txt") urls ;;
  for_each OutputOption_members (fun output_option =>
    let base_dir := output_dir // value output_option in
    FS.rmtree_ignore_errors base_dir ;;
    FS.mkdir_parents base_dir) ;;
  results ← scrape_loop args driver output_dir url_to_lastmod urls [];
  let summary_path := output_dir // "summary.json" in
  FS.open_w summary_path ;;
  FS.write summary_path (json_dumps ext results) ;;
  print ("Saved " +:+ pretty (length results) +:+ " articles to "
         +:+ PyPath.to_string summary_path) ;;
  match driver with
  | Some driver => driver_quit driver
  | None => mret tt
  end ;;
  mret results.

End Script.

(** The content the specification gives for [urls.txt]: every address
    followed by a newline, in list order. *)
Definition urls_txt (urls : list string) : string :=
  List.fold_right (fun url rest => url +:+ newline +:+ rest) "" urls.

(** The address [main] retrieves the sitemap from. *)
Definition sitemap_url_of (args : Args) : string :=
  PyStr.rstrip "/" (arg_url args) +:+ "/" +:+ PyStr.lstrip "/" (arg_sitemap args).

Definition sign_in_url : string := "https://substack.com/sign-in".

(** ** Statements about runs *)

(** [respects R m]: every run of [m], returning or raising, takes a world to
    an [R]-related world. *)
Definition respects (R : relation World) {A} (m : M A) : Prop :=
  ∀ w, R w (m w).2.

(** [hoare P m Q E]: from a world satisfying [P], a run of [m] that returns
    [a] ends in a world satisfying [Q a], and a run that raises [e] ends in a
    world satisfying [E e]. *)
Definition hoare {A} (P : World → Prop) (m : M A)
    (Q : A → World → Prop) (E : exn → World → Prop) : Prop :=
  ∀ w, P w → match m w with
             | (Returned a, w') => Q a w'
             | (Raised e, w') => E e w'
             end.

(** A relation that does not look at the printed lines or at the network
    clock. *)
Class Quiet (R : relation World) := {
  quiet_preorder :: PreOrder R;
  quiet_stdout w o : R w (with_stdout o w);
  quiet_clock w n : R w (with_clock n w);
}.

(** Relations between the world before and after a computation, used to
    state what a run leaves untouched. *)
Definition same_session : relation World :=
  fun w w' => session w' = session w.

(** The file at [p] is as it was (present with the same content, or
    absent). *)
Definition keeps (p : Path) : relation World :=
  fun w w' => files w' !! p = files w !! p.

(** No file disappeared. *)
Definition files_grow : relation World :=
  fun w w' => ∀ p, is_Some (files w !! p) → is_Some (files w' !! p).

(** What the specification reads off a [<url>] element: the text of its
    [<loc>], if it has one, and the text of its [<lastmod>], or the empty
    string. *)
Definition loc_of (url_tag : Node) : option string :=
  Soup.text <$> Soup.find "loc" url_tag.

Definition lastmod_of (url_tag : Node) : string :=
  default "" (Soup.text <$> Soup.find "lastmod" url_tag).

Definition has_loc (url_tag : Node) : bool :=
  bool_decide (is_Some (Soup.find "loc" url_tag)).

(** The narrower reading, by children only: the first child of the element
    with the given name, and whether the element has a [<loc>] child. *)
Definition child_named (name : string) (n : Node) : option Node :=
  match n with
  | Tag _ _ cs => List.find (Soup.tag_named name) cs
  | NavigableString _ => None
  end.

Definition has_loc_child (url_tag : Node) : bool :=
  bool_decide (is_Some (child_named "loc" url_tag)).

(** The retrieval of [url] raises whenever it is attempted, in the mode of
    the run: with the browser in paid mode, over HTTP otherwise. *)
Definition fetch_fails (ext : Externals) (args : Args) (url : string) : Prop :=
  ∀ now, (if arg_paid args then driver_get ext now url
          else requests_get ext now url) = None.

(** Where [main] writes the manifest. *)
Definition summary_path_of (args : Args) : Path :=
  PyPath.of_string (arg_output args) // "summary.json".


(** ** A small concrete world, used by the examples below *)

Module Demo.

Definition sitemap_url : string := "https://e.substack.com/sitemap.xml".
Definition url_a : string := "https://e.substack.com/p/a".
Definition url_b : string := "https://e.substack.com/p/b".
Definition url_c : string := "https://e.substack.com/p/c/".

Definition url_entry (loc : string) (lastmod : option string) : Node :=
  Tag "url" []
    (Tag "loc" [] [NavigableString loc] ::
     match lastmod with
     | Some d => [Tag "lastmod" [] [NavigableString d]]
     | None => []
     end).

(** The sitemap: three entries, the third without [lastmod]. *)
Definition sitemap : Node :=
  Tag "[document]" []
    [Tag "urlset" []
       [url_entry url_a (Some "2024-03-05T12:00:00Z");
        url_entry url_b (Some "2024-03-06T08:30:00Z");
        url_entry url_c None]].

(** A page whose body is the article container holding [body]. *)
Definition article_page (body : string) : Node :=
  Tag "[document]" []
    [Tag "html" []
       [Tag "body" []
          [Tag "div" ["post"; "available-content"] [NavigableString body]]]].

(** A page without the article container. *)
Definition other_page : Node :=
  Tag "[document]" []
    [Tag "html" [] [Tag "body" [] [Tag "div" ["paywall"] [NavigableString "Subscribe"]]]].

Definition serve (failing : list string) (now : nat) (url : string) : option string :=
  if bool_decide (url ∈ failing) then None else Some url.

(** Every address answers with its own name as body, except the ones in
    [failing], for which the request raises; a body is parsed into the
    sitemap, into a page without the container (the addresses in [bare]) or
    into an article page. *)
Definition world_of (failing bare : list string) : Externals := {|
  requests_get := serve failing;
  driver_get := serve failing;
  parse_xml := fun _ => sitemap;
  parse_lxml := fun content =>
    if bool_decide (content ∈ bare) then other_page else article_page content;
  tag_str := fun tag => "<div>" +:+ Soup.text tag +:+ "</div>";
  markdownify := fun html => "md:" +:+ html;
  json_dumps := fun results => PyStr.join ";" (List.map (fun r => r.1 +:+ "@" +:+ r.2) results);
|}.

Definition args_free : Args := {|
  arg_url := "https://e.substack.com/";
  arg_sitemap := SITEMAP_STRING;
  arg_paid := false;
  arg_output := "out";
  arg_delay := 300;
|}.

Definition args_paid : Args := {|
  arg_url := "https://e.substack.com/";
  arg_sitemap := SITEMAP_STRING;
  arg_paid := true;
  arg_output := "out";
  arg_delay := 300;
|}.

Definition args_default_output : Args := {|
  arg_url := "https://e.substack.com/";
  arg_sitemap := SITEMAP_STRING;
  arg_paid := false;
  arg_output := ".";
  arg_delay := 300;
|}.

Definition w0 : World := mkWorld ∅ ∅ [] NoSession 0.

End Demo.

(** More of the concrete world: a sitemap without entries, a paid run with a
    negative delay, a world that holds a file of an earlier run, sitemaps
    with an unusual timestamp, and a sitemap whose [<loc>] is not a child of
    its [<url>] element. *)
Module DemoMore.
Import Demo.

Definition empty_sitemap : Node :=
  Tag "[document]" [] [Tag "urlset" [] []].

Definition world_without_articles : Externals := {|
  requests_get := serve [];
  driver_get := serve [];
  parse_xml := fun _ => empty_sitemap;
  parse_lxml := article_page;
  tag_str := fun tag => "<div>" +:+ Soup.text tag +:+ "</div>";
  markdownify := fun html => "md:" +:+ html;
  json_dumps := fun results => PyStr.join ";" (List.map (fun r => r.1 +:+ "@" +:+ r.2) results);
|}.

Definition args_paid_negative_delay : Args := {|
  arg_url := "https://e.substack.com/";
  arg_sitemap := SITEMAP_STRING;
  arg_paid := true;
  arg_output := "out";
  arg_delay := -1;
|}.

Definition w_stale : World :=
  mkWorld {[ ["out"; "html"; "old.html"] := "stale" ]}
    {[ ["out"]; ["out"; "html"] ]} [] NoSession 0.

Definition manifest_abc : list (string * string) :=
  [(url_a, "2024-03-05T12:00:00Z"); (url_b, "2024-03-06T08:30:00Z"); (url_c, "")].

(** The world in which every address answers and the sitemap parses into
    [doc]. *)
Definition world_with_sitemap (doc : Node) : Externals := {|
  requests_get := serve [];
  driver_get := serve [];
  parse_xml := fun _ => doc;
  parse_lxml := article_page;
  tag_str := fun tag => "<div>" +:+ Soup.text tag +:+ "</div>";
  markdownify := fun html => "md:" +:+ html;
  json_dumps := fun results => PyStr.join ";" (List.map (fun r => r.1 +:+ "@" +:+ r.2) results);
|}.

(** The sitemap with the one entry for [url_a], last modified at
    [lastmod]. *)
Definition sitemap_of_a (lastmod : string) : Node :=
  Tag "[document]" [] [Tag "urlset" [] [url_entry url_a (Some lastmod)]].


(** A sitemap whose only [<url>] element has no [<loc>] child: its [<loc>]
    lies inside an [<image>] element. *)
Definition url_image : string := "https://e.substack.com/img/1.png".

Definition nested_sitemap : Node :=
  Tag "[document]" []
    [Tag "urlset" []
       [Tag "url" []
          [Tag "image" [] [Tag "loc" [] [NavigableString url_image]]]]].

End DemoMore.

(** ** Vocabulary for the properties of whole runs *)

(** The manifest entry of an address: the address with what the mapping of
    the sitemap has for it. *)
Definition manifest_entry (url_to_lastmod : gmap string string) (url : string)
    : string * string :=
  (url, default "" (url_to_lastmod !! url)).

(** What the loop of [main] retrieves for an address: the browser in paid
    mode, an HTTP request otherwise. *)
Definition fetch_article (ext : Externals) (args : Args) (driver : option Driver)
    (url : string) : M string :=
  if arg_paid args
  then scrape_article_selenium ext driver url (arg_delay args)
  else scrape_article_requests ext url TIMEOUT_SECONDS.

(** The page the network has for an address at a given time, in the mode of
    the run. *)
Definition page_at (ext : Externals) (args : Args) (now : nat) (url : string)
    : option string :=
  if arg_paid args then driver_get ext now url else requests_get ext now url.

(** The number of network interactions was not changed. *)
Definition same_clock : relation World :=
  fun w w' => clock w' = clock w.

(** The directories were not changed. *)
Definition same_dirs : relation World :=
  fun w w' => dirs w' = dirs w.

(** The command line with another delay. *)
Definition with_delay (delay : Z) (args : Args) : Args :=
  {| arg_url := arg_url args; arg_sitemap := arg_sitemap args;
     arg_paid := arg_paid args; arg_output := arg_output args;
     arg_delay := delay |}.

(** The directory of a representation under the output directory of the
    command line. *)
Definition representation_dir (args : Args) (o : OutputOption) : Path :=
  PyPath.of_string (arg_output args) // value o.

(** Every file below the directory of a representation lies in an existing
    directory: the directory of the representation is there. *)
Definition representation_dirs_consistent (args : Args) (w : World) : Prop :=
  ∀ o p, representation_dir args o `prefix_of` p →
         p ≠ representation_dir args o →
         is_Some (files w !! p) →
         representation_dir args o ∈ dirs w.

(** * Properties *)

(** ** Strings *)

Module PyStrFacts.
Import PyStr.

Lemma app_cons a s t : String a s +:+ t = String a (s +:+ t).
Proof. reflexivity. Qed.

Lemma app_nil_l s : "" +:+ s = s.
Proof. reflexivity. Qed.

Lemma app_nil_r s : s +:+ "" = s.
Proof. induction s as [|a s IH]; [done|]. by rewrite app_cons, IH. Qed.

Lemma app_assoc s t u : (s +:+ t) +:+ u = s +:+ (t +:+ u).
Proof. induction s as [|a s IH]; [done|]. by rewrite !app_cons, IH. Qed.

Lemma app_length s t : String.length (s +:+ t) = String.length s + String.length t.
Proof. induction s as [|a s IH]; [done|]. rewrite app_cons. simpl. by rewrite IH. Qed.

Lemma app_eq_nil s t : s +:+ t = "" → s = "" ∧ t = "".
Proof. destruct s; [done|]. by rewrite app_cons. Qed.

(** Cancellation on the right. *)
Lemma app_inv_tail s t u : s +:+ u = t +:+ u → s = t.
Proof.
  revert t. induction s as [|a s IH]; intros [|b t] H; try done.
  - exfalso. apply (f_equal String.length) in H.
    rewrite app_nil_l, app_length in H. simpl in H. lia.
  - exfalso. apply (f_equal String.length) in H.
    rewrite app_nil_l, app_length in H. simpl in H. lia.
  - rewrite !app_cons in H. injection H as -> H. f_equal. by apply IH.
Qed.

Lemma contains_app c s t : contains c (s +:+ t) = contains c s || contains c t.
Proof.
  induction s as [|a s IH]; [done|].
  rewrite app_cons. simpl. rewrite IH. by rewrite orb_assoc.
Qed.

Lemma startswith_contains c s : startswith c s = true → contains c s = true.
Proof. destruct s as [|a s]; [done|]. simpl. by intros ->. Qed.

(** A string without the separator has one way to be cut at the first
    separator. *)
Lemma cut_at_first_unique c a x b y :
  contains c a = false → contains c b = false →
  a +:+ String c x = b +:+ String c y → a = b ∧ x = y.
Proof.
  revert b. induction a as [|a0 a IH]; intros [|b0 b] Ha Hb H.
  - rewrite !app_nil_l in H. by injection H.
  - rewrite app_nil_l, app_cons in H. injection H as <- _.
    simpl in Hb. by rewrite Ascii.eqb_refl in Hb.
  - rewrite app_nil_l, app_cons in H. injection H as -> _.
    simpl in Ha. by rewrite Ascii.eqb_refl in Ha.
  - rewrite !app_cons in H. injection H as -> H.
    simpl in Ha, Hb. apply orb_false_iff in Ha as [_ Ha].
    apply orb_false_iff in Hb as [_ Hb].
    destruct (IH b Ha Hb H) as [-> ->]. done.
Qed.

Lemma split_nonempty c s : split c s ≠ [].
Proof.
  destruct s as [|a s]; [done|]. simpl.
  destruct (Ascii.eqb a c); [done|]. by destruct (split c s).
Qed.

Lemma split_no_sep c s : contains c s = false → split c s = [s].
Proof.
  induction s as [|a s IH]; [done|]. simpl.
  intros [Ha Hs]%orb_false_iff. rewrite Ha, (IH Hs). done.
Qed.

(** [s.split(c)[0]] is the part of [s] before the first [c]. *)
Lemma split_first_spec c s :
  ∃ rest, s = item_first (split c s) +:+ rest
          ∧ contains c (item_first (split c s)) = false
          ∧ (rest = "" ∨ startswith c rest = true).
Proof.
  induction s as [|a s (rest & Hs & Hc & Hr)].
  - exists "". by eauto.
  - simpl. destruct (Ascii.eqb a c) eqn:Ha.
    + exists (String a s). simpl. rewrite Ha. by eauto.
    + pose proof (split_nonempty c s) as Hne.
      destruct (split c s) as [|w ws]; [done|].
      exists rest. simpl in *. rewrite Ha, Hc, app_cons, <- Hs. by eauto.
Qed.

Lemma split_app_sep c x y :
  split c (x +:+ String c y) = split c x ++ split c y.
Proof.
  induction x as [|a x IH].
  - rewrite app_nil_l. simpl. by rewrite Ascii.eqb_refl.
  - rewrite app_cons. simpl. rewrite IH.
    destruct (Ascii.eqb a c); [done|].
    pose proof (split_nonempty c x). by destruct (split c x).
Qed.

(** Appending text without separator extends the last piece. *)
Lemma split_app_no_sep c x y :
  contains c y = false →
  split c (x +:+ y) = removelast (split c x) ++ [item_last (split c x) +:+ y].
Proof.
  intros Hy. induction x as [|a x IH].
  - rewrite app_nil_l. by apply split_no_sep.
  - rewrite app_cons. simpl. rewrite IH. unfold item_last.
    pose proof (split_nonempty c x) as Hne.
    destruct (Ascii.eqb a c).
    + by destruct (split c x).
    + destruct (split c x) as [|w [|w' ws]]; done.
Qed.

Lemma split_two_pieces c s :
  contains c s = true → ∃ w1 w2 ws, split c s = w1 :: w2 :: ws.
Proof.
  induction s as [|a s IH]; [done|]. simpl.
  destruct (Ascii.eqb a c); simpl.
  - intros _. pose proof (split_nonempty c s).
    destruct (split c s) as [|w ws]; [done|]. by eauto.
  - intros (w1 & w2 & ws & ->)%IH. by eauto.
Qed.

Lemma item_last_split_cons c a s :
  item_last (split c (String a s)) =
  if contains c (String a s) then item_last (split c s) else String a s.
Proof.
  simpl. unfold item_last. destruct (Ascii.eqb a c); simpl.
  - pose proof (split_nonempty c s). by destruct (split c s).
  - destruct (contains c s) eqn:Hs.
    + destruct (split_two_pieces c s Hs) as (w1 & w2 & ws & ->). done.
    + by rewrite (split_no_sep c s Hs).
Qed.

Lemma endswith_cons c a s : s ≠ "" → endswith c (String a s) = endswith c s.
Proof. by destruct s. Qed.

(** [s.split(c)[-1]] is the part of [s] after the last [c]. *)
Lemma split_last_spec c s :
  ∃ pre, s = pre +:+ item_last (split c s)
         ∧ contains c (item_last (split c s)) = false
         ∧ (pre = "" ∨ endswith c pre = true).
Proof.
  induction s as [|a s (pre & Hs & Hc & Hp)].
  - exists "". by eauto.
  - rewrite item_last_split_cons.
    destruct (contains c (String a s)) eqn:Has.
    + exists (String a pre). rewrite app_cons, <- Hs. split_and!; [done..|].
      right. destruct Hp as [->|Hp].
      * rewrite app_nil_l in Hs. rewrite <- Hs in Hc. simpl in Has.
        rewrite Hc, orb_false_r in Has. done.
      * rewrite endswith_cons; [done|]. by intros ->.
    + exists "". by eauto.
Qed.

(** [s.rstrip(c)] removes exactly the trailing run of [c]. *)
Lemma rstrip_spec c s :
  ∃ n, s = rstrip c s +:+ repeat_char c n ∧ endswith c (rstrip c s) = false.
Proof.
  induction s as [|a s (n & Hs & He)].
  - exists 0. by eauto.
  - simpl. destruct (rstrip c s) as [|b r] eqn:Hr.
    + rewrite app_nil_l in Hs. destruct (Ascii.eqb a c) eqn:Ha.
      * apply Ascii.eqb_eq in Ha as ->. exists (S n). simpl. by rewrite <- Hs.
      * exists n. rewrite app_cons, app_nil_l, <- Hs. simpl. by rewrite Ha.
    + exists n. rewrite app_cons, <- Hs. by eauto.
Qed.

Lemma lstrip_spec c s :
  ∃ n, s = repeat_char c n +:+ lstrip c s ∧ startswith c (lstrip c s) = false.
Proof.
  induction s as [|a s (n & Hs & He)].
  - exists 0. by eauto.
  - simpl. destruct (Ascii.eqb a c) eqn:Ha.
    + apply Ascii.eqb_eq in Ha as ->. exists (S n). simpl.
      by rewrite app_cons, <- Hs.
    + exists 0. simpl. by rewrite Ha.
Qed.

End PyStrFacts.

(** ** Paths and [make_file_path] *)

Module PathFacts.
Import PyStr PyStrFacts.

Lemma keep_part_ext x o : PyPath.keep_part (x +:+ ("." +:+ value o)) = true.
Proof.
  unfold PyPath.keep_part. apply negb_true_iff, orb_false_iff.
  split; apply String.eqb_neq; intros H.
  - apply app_eq_nil in H as [_ H]. by destruct o.
  - apply (f_equal String.length) in H. rewrite app_length in H.
    destruct o; simpl in H; lia.
Qed.

Lemma ext_no_slash o : contains "/" ("." +:+ value o) = false.
Proof. by destruct o. Qed.

Lemma of_string_single name :
  contains "/" name = false → PyPath.keep_part name = true →
  PyPath.of_string name = [name].
Proof.
  intros Hc Hk. unfold PyPath.of_string.
  destruct (startswith "/" name) eqn:Hs.
  - apply startswith_contains in Hs. congruence.
  - rewrite (split_no_sep _ _ Hc). simpl. by rewrite Hk.
Qed.

Lemma joinpath_single base name :
  contains "/" name = false → PyPath.keep_part name = true →
  base // name = base ++ [name].
Proof.
  intros Hc Hk. unfold PyPath.joinpath. rewrite (of_string_single _ Hc Hk).
  simpl. destruct (String.eqb_spec name "/") as [->|]; done.
Qed.

Lemma last_path_segment_no_slash url : contains "/" (last_path_segment url) = false.
Proof.
  unfold last_path_segment.
  by destruct (split_last_spec "/" (rstrip "/" url)) as (? & _ & ? & _).
Qed.

Lemma make_file_path_unfold url lastmod base_dir o :
  make_file_path url lastmod base_dir o
  = base_dir // (date_prefix lastmod +:+ last_path_segment url +:+ "." +:+ value o).
Proof.
  unfold make_file_path, date_prefix. fold (date_part lastmod).
  fold (last_path_segment url).
  destruct (truthy (date_part lastmod)); [|done].
  by rewrite !app_assoc.
Qed.

(** The last part of a planned path: what follows the last slash of the date
    prefix, the segment and the extension. *)
Lemma make_file_path_last url lastmod base_dir o :
  List.last (make_file_path url lastmod base_dir o) ""
  = item_last (split "/" (date_prefix lastmod))
    +:+ last_path_segment url +:+ "." +:+ value o.
Proof.
  rewrite make_file_path_unfold.
  assert (contains "/" (last_path_segment url +:+ "." +:+ value o) = false) as Hns.
  { by rewrite contains_app, last_path_segment_no_slash, ext_no_slash. }
  set (P := date_prefix lastmod) in *. set (s := last_path_segment url) in *.
  unfold PyPath.joinpath, PyPath.of_string.
  rewrite (split_app_no_sep _ P _ Hns), List.filter_app.
  assert (PyPath.keep_part (item_last (split "/" P) +:+ s +:+ "." +:+ value o) = true)
    as Hk by (rewrite <- app_assoc; apply keep_part_ext).
  change (List.filter PyPath.keep_part [?x]) with
    (if PyPath.keep_part x then [x] else []).
  rewrite Hk, List.app_assoc.
  destruct (PyPath.is_absolute _); [|rewrite List.app_assoc];
    by rewrite List.last_last.
Qed.

Lemma date_prefix_plain lastmod :
  plain_date (date_part lastmod) → date_prefix lastmod = date_part lastmod +:+ "_".
Proof. intros (Hne & _ & _). unfold date_prefix. by destruct (date_part lastmod). Qed.

(** With a plain date the file is planned directly in the base directory. *)
Lemma make_file_path_plain url lastmod base_dir o :
  plain_date (date_part lastmod) →
  make_file_path url lastmod base_dir o
  = base_dir ++ [date_part lastmod +:+ "_" +:+ last_path_segment url +:+ "." +:+ value o].
Proof.
  intros Hp. rewrite make_file_path_unfold, (date_prefix_plain _ Hp).
  destruct Hp as (_ & _ & Hs). rewrite app_assoc.
  apply joinpath_single.
  - rewrite !contains_app, Hs, last_path_segment_no_slash. by destruct o.
  - rewrite <- !app_assoc, (app_assoc _ "."). apply keep_part_ext.
Qed.

Lemma make_file_path_undated url lastmod base_dir o :
  date_part lastmod = "" →
  make_file_path url lastmod base_dir o
  = base_dir ++ [last_path_segment url +:+ "." +:+ value o].
Proof.
  intros Hd. rewrite make_file_path_unfold. unfold date_prefix. rewrite Hd. simpl.
  rewrite app_nil_l. apply joinpath_single.
  - by rewrite contains_app, last_path_segment_no_slash, ext_no_slash.
  - apply keep_part_ext.
Qed.

(** When the date part has no slash the file is planned directly in the base
    directory. *)
Lemma make_file_path_flat url lastmod base_dir o :
  contains "/" (date_part lastmod) = false →
  make_file_path url lastmod base_dir o
  = base_dir ++ [date_prefix lastmod +:+ last_path_segment url +:+ "." +:+ value o].
Proof.
  intros Hd. rewrite make_file_path_unfold. apply joinpath_single.
  - rewrite !contains_app, last_path_segment_no_slash. unfold date_prefix.
    destruct (truthy _); destruct o; by rewrite ?contains_app, ?Hd.
  - rewrite <- app_assoc. apply keep_part_ext.
Qed.

Lemma endswith_app c x t : t ≠ "" → endswith c (x +:+ t) = endswith c t.
Proof.
  intros Ht. induction x as [|a x IH]; [done|].
  rewrite app_cons, endswith_cons; [done|].
  intros [_ ?]%app_eq_nil. done.
Qed.

(** A planned path is never the manifest or the list of addresses: its last
    part ends with the extension of the representation. *)
Lemma make_file_path_not_reserved url lastmod base_dir o dir name :
  name = "summary.json" ∨ name = "urls.txt" →
  make_file_path url lastmod base_dir o ≠ dir ++ [name].
Proof.
  intros Hname Heq. apply (f_equal (λ p, List.last p "")) in Heq.
  rewrite make_file_path_last, List.last_last in Heq.
  rewrite <- app_assoc in Heq.
  destruct Hname as [-> | ->].
  - apply (f_equal (endswith "n")) in Heq.
    rewrite endswith_app in Heq; by destruct o.
  - apply (f_equal (endswith "t")) in Heq.
    rewrite endswith_app in Heq; by destruct o.
Qed.

End PathFacts.

Section PathPlanner.
Import PyStr PyStrFacts PathFacts.

Example make_file_path_dated :
  PyPath.to_string
    (make_file_path "https://example.substack.com/p/my-article/"
       "2024-03-05T12:00:00Z" (PyPath.of_string "out/html") HTML)
  = "out/html/2024-03-05_my-article.html".
Proof. reflexivity. Qed.

Example make_file_path_undated_md :
  PyPath.to_string
    (make_file_path "https://example.substack.com/p/my-article/"
       "" (PyPath.of_string "out/md") MD)
  = "out/md/my-article.md".
Proof. reflexivity. Qed.

(** C7.  The planned path is the base directory joined with the date prefix,
    the last path segment and the extension, where the date part is the text
    of the timestamp before its first ["T"], the prefix is that date followed
    by an underscore (nothing for an empty date), and the last path segment
    is what follows the last slash of the address once its trailing slashes
    are removed.  For the timestamp ["2024-03-05T12:00:00Z"] under [out/html]
    and HTML the path reads [out/html/2024-03-05_<segment>.html], for an
    empty timestamp [out/html/<segment>.html], and the segment of
    [https://example.substack.com/p/my-article/] is [my-article]. *)
Theorem make_file_path_format :
  (∀ url lastmod base_dir o,
     make_file_path url lastmod base_dir o
     = base_dir // (date_prefix lastmod +:+ last_path_segment url +:+ "." +:+ value o))
  ∧ (∀ lastmod, ∃ rest,
       lastmod = date_part lastmod +:+ rest
       ∧ contains "T" (date_part lastmod) = false
       ∧ (rest = "" ∨ startswith "T" rest = true))
  ∧ (∀ lastmod,
       date_prefix lastmod
       = if decide (date_part lastmod = "") then "" else date_part lastmod +:+ "_")
  ∧ (∀ url, ∃ pre n,
       url = pre +:+ last_path_segment url +:+ repeat_char "/" n
       ∧ contains "/" (last_path_segment url) = false
       ∧ (pre = "" ∨ endswith "/" pre = true)
       ∧ endswith "/" (pre +:+ last_path_segment url) = false)
  ∧ (∀ url,
       PyPath.to_string
         (make_file_path url "2024-03-05T12:00:00Z" (PyPath.of_string "out/html") HTML)
       = "out/html/2024-03-05_" +:+ last_path_segment url +:+ ".html")
  ∧ (∀ url,
       PyPath.to_string (make_file_path url "" (PyPath.of_string "out/html") HTML)
       = "out/html/" +:+ last_path_segment url +:+ ".html")
  ∧ last_path_segment "https://example.substack.com/p/my-article/" = "my-article".
Proof.
  split_and!.
  - apply make_file_path_unfold.
  - intros lastmod. unfold date_part. destruct lastmod as [|a s].
    + exists "". by eauto.
    + apply split_first_spec.
  - intros lastmod. unfold date_prefix.
    by destruct (date_part lastmod).
  - intros url. unfold last_path_segment.
    destruct (rstrip_spec "/" url) as (n & Hu & He).
    destruct (split_last_spec "/" (rstrip "/" url)) as (pre & Hs & Hc & Hp).
    exists pre, n. rewrite <- app_assoc, <- Hs. by eauto.
  - intros url. rewrite (make_file_path_plain url "2024-03-05T12:00:00Z"); [|done].
    reflexivity.
  - intros url. by rewrite (make_file_path_undated url "").
  - reflexivity.
Qed.

(** C6, as the code has it.  When the two date parts are equal, or both are
    plain dates (not empty, no underscore, no slash), two inputs get the same
    path for the same base directory and representation exactly when they
    share both the date part and the last path segment. *)
Theorem make_file_path_collision u1 l1 u2 l2 base_dir o :
  date_part l1 = date_part l2
  ∨ (plain_date (date_part l1) ∧ plain_date (date_part l2)) →
  make_file_path u1 l1 base_dir o = make_file_path u2 l2 base_dir o
  ↔ date_part l1 = date_part l2 ∧ last_path_segment u1 = last_path_segment u2.
Proof.
  intros Hd. split.
  - intros Heq. destruct Hd as [Hd|[Hp1 Hp2]].
    + split; [done|].
      apply (f_equal (λ p, List.last p "")) in Heq.
      rewrite !make_file_path_last in Heq. unfold date_prefix in Heq.
      rewrite Hd in Heq. apply String.app_inj in Heq.
      by apply app_inv_tail in Heq.
    + rewrite (make_file_path_plain _ _ _ _ Hp1),
        (make_file_path_plain _ _ _ _ Hp2) in Heq.
      apply app_inv_head in Heq. injection Heq as Heq.
      destruct Hp1 as (_ & H1 & _), Hp2 as (_ & H2 & _).
      destruct (cut_at_first_unique _ _ _ _ _ H1 H2 Heq) as [Hdd Hss].
      split; [done|]. by apply app_inv_tail in Hss.
  - intros [Hdd Hss]. rewrite !make_file_path_unfold. unfold date_prefix.
    by rewrite Hdd, Hss.
Qed.

Lemma make_file_path_collision_witness :
  make_file_path "https://example.substack.com/p/first" "2024-03-05T12:00:00Z"
    ["out"; "html"] HTML
  = make_file_path "https://example.substack.com/p/second" "2024-03-06T09:00:00Z"
      ["out"; "html"] HTML
  ↔ date_part "2024-03-05T12:00:00Z" = date_part "2024-03-06T09:00:00Z"
    ∧ last_path_segment "https://example.substack.com/p/first"
      = last_path_segment "https://example.substack.com/p/second".
Proof.
  apply (make_file_path_collision
           "https://example.substack.com/p/first" "2024-03-05T12:00:00Z"
           "https://example.substack.com/p/second" "2024-03-06T09:00:00Z").
  right. split; (split_and!; [discriminate|reflexivity|reflexivity]).
Defined.

(** C6, as stated, fails: an undated address whose segment starts with a date
    and an underscore collides with the dated address of the remaining
    segment, although the two differ in segment and in date part. *)
Lemma make_file_path_collision_counterexample :
  last_path_segment "https://example.substack.com/p/2024-03-05_notes"
  ≠ last_path_segment "https://example.substack.com/p/notes"
  ∧ date_part "" ≠ date_part "2024-03-05T12:00:00Z"
  ∧ make_file_path "https://example.substack.com/p/2024-03-05_notes" ""
      ["out"; "html"] HTML
    = make_file_path "https://example.substack.com/p/notes" "2024-03-05T12:00:00Z"
        ["out"; "html"] HTML.
Proof. split_and!; [discriminate|discriminate|reflexivity]. Qed.

End PathPlanner.

(** ** Running the monad *)

Module MFacts.

Lemma bind_run {A B} (m : M A) (k : A → M B) w :
  (m ≫= k) w = match m w with
               | (Returned a, w') => k a w'
               | (Raised e, w') => (Raised e, w')
               end.
Proof. reflexivity. Qed.

Lemma bind_returned {A B} (m : M A) (k : A → M B) w a w1 :
  m w = (Returned a, w1) → (m ≫= k) w = k a w1.
Proof. intros H. by rewrite bind_run, H. Qed.

Lemma bind_raised {A B} (m : M A) (k : A → M B) w e w1 :
  m w = (Raised e, w1) → (m ≫= k) w = (Raised e, w1).
Proof. intros H. by rewrite bind_run, H. Qed.

(** A run of [m ≫= k] either ran [m] and then [k], or stopped at the
    exception of [m]. *)
Lemma bind_inv {A B} (m : M A) (k : A → M B) w r w' :
  (m ≫= k) w = (r, w') →
  (∃ a w1, m w = (Returned a, w1) ∧ k a w1 = (r, w'))
  ∨ (∃ e, m w = (Raised e, w') ∧ r = Raised e).
Proof.
  rewrite bind_run. destruct (m w) as [[a|e] w1]; intros H.
  - left. by eauto.
  - right. injection H as <- <-. by eauto.
Qed.

Lemma bind_returned_inv {A B} (m : M A) (k : A → M B) w b w' :
  (m ≫= k) w = (Returned b, w') →
  ∃ a w1, m w = (Returned a, w1) ∧ k a w1 = (Returned b, w').
Proof.
  intros [H|(e & _ & H)]%bind_inv; [done|discriminate].
Qed.

Section Respects.
Context (R : relation World) `{!PreOrder R}.

Lemma respects_ret {A} (a : A) : respects R (mret a).
Proof. intros w. reflexivity. Qed.

Lemma respects_raise {A} e : respects R (@raise A e).
Proof. intros w. reflexivity. Qed.

Lemma respects_bind {A B} (m : M A) (k : A → M B) :
  respects R m → (∀ a, respects R (k a)) → respects R (m ≫= k).
Proof.
  intros Hm Hk w. rewrite bind_run. specialize (Hm w).
  destruct (m w) as [[a|e] w1]; simpl in *; [|done].
  etrans; [exact Hm|apply Hk].
Qed.

Lemma respects_for_each {A} (l : list A) (body : A → M unit) :
  (∀ x, respects R (body x)) → respects R (for_each l body).
Proof.
  intros Hb. induction l as [|x l IH]; simpl.
  - apply respects_ret.
  - apply respects_bind; [apply Hb|done].
Qed.

Lemma respects_read_local {A} name (v : option A) : respects R (read_local name v).
Proof. destruct v; [apply respects_ret|apply respects_raise]. Qed.

Lemma respects_sleep delay : respects R (sleep delay).
Proof. unfold sleep. destruct (_ <? _)%Z; [apply respects_raise|apply respects_ret]. Qed.

End Respects.

End MFacts.

(** ** The format converter *)

Section FormatConverter.
Variable ext : Externals.

(** C9.  Converting to the HTML representation returns the content itself,
    and a value that is not a member of the enumeration makes [convert_to]
    raise [ValueError] instead of returning. *)
Theorem convert_to_html_identity content w :
  convert_to ext content (PyMember HTML) w = (Returned content, w)
  ∧ ∀ v, (∀ o, v ≠ PyMember o) →
      convert_to ext content v w
      = (Raised (ValueError ("Unsupported output option: " +:+ py_str v)), w).
Proof.
  split; [done|]. intros v Hv. destruct v as [o| | |]; try done.
  by destruct (Hv o).
Qed.

End FormatConverter.

(** ** The list of addresses on disk *)

Section StoreSitemap.
Import MFacts.

Lemma write_lines_content path urls : ∀ w c,
  files w !! path = Some c →
  (for_each urls (fun url => FS.write path (url +:+ newline)) w).1 = Returned tt
  ∧ files (for_each urls (fun url => FS.write path (url +:+ newline)) w).2 !! path
    = Some (c +:+ urls_txt urls).
Proof.
  induction urls as [|url urls IH]; intros w c Hc; simpl.
  - by rewrite PyStrFacts.app_nil_r.
  - rewrite bind_run. unfold FS.write at 1. unfold modify at 1.
    match goal with |- context [for_each urls ?b ?w1] =>
      destruct (IH w1 (c +:+ url +:+ newline)) as [H1 H2] end.
    { simpl. by rewrite lookup_insert_eq, Hc. }
    split; [done|]. etrans; [exact H2|]. by rewrite !PyStrFacts.app_assoc.
Qed.

Lemma open_w_ok path w :
  FS.dir_exists w path = false → FS.dir_exists w (PyPath.parent path) = true →
  FS.open_w path w = (Returned tt, with_files (<[path := ""]> (files w)) w).
Proof. intros H1 H2. unfold FS.open_w. by rewrite H1, H2. Qed.

(** A call of [store_sitemap] that returns has written the addresses. *)
Lemma store_sitemap_returned path urls w w' :
  store_sitemap path urls w = (Returned tt, w') →
  files w' !! path = Some (urls_txt urls).
Proof.
  unfold store_sitemap.
  intros (? & w1 & Hopen & Hrun)%bind_returned_inv.
  unfold FS.open_w in Hopen. destruct (_ || _); [done|].
  injection Hopen as _ <-.
  apply bind_returned_inv in Hrun as ([] & w2 & Hlines & Hprint).
  injection Hprint as <-. simpl.
  destruct (write_lines_content path urls
              (with_files (<[path:=""]> (files w)) w) "") as [_ Hc];
    [apply lookup_insert_eq|].
  cbv beta in Hlines. rewrite Hlines in Hc. exact Hc.
Qed.

(** C10.  Wherever the file can be opened for writing, [store_sitemap]
    returns and leaves in it exactly the addresses, each followed by a
    newline, in list order; the content is the same whatever the world the
    run started from. *)
Theorem store_sitemap_content path urls w1 w2 :
  FS.dir_exists w1 path = false → FS.dir_exists w1 (PyPath.parent path) = true →
  FS.dir_exists w2 path = false → FS.dir_exists w2 (PyPath.parent path) = true →
  (store_sitemap path urls w1).1 = Returned tt
  ∧ files (store_sitemap path urls w1).2 !! path = Some (urls_txt urls)
  ∧ files (store_sitemap path urls w2).2 !! path
    = files (store_sitemap path urls w1).2 !! path.
Proof.
  assert (∀ w, FS.dir_exists w path = false →
               FS.dir_exists w (PyPath.parent path) = true →
               (store_sitemap path urls w).1 = Returned tt
               ∧ files (store_sitemap path urls w).2 !! path = Some (urls_txt urls))
    as Hone.
  { intros w H1 H2. unfold store_sitemap.
    rewrite (bind_returned _ _ _ _ _ (open_w_ok _ _ H1 H2)).
    rewrite bind_run.
    match goal with |- context [for_each urls ?b ?w1] =>
      destruct (write_lines_content path urls w1 "") as [Hr Hc];
      [apply lookup_insert_eq|];
      destruct (for_each urls b w1) as [[[]|e] w1'] end; [|done].
    by simpl in *. }
  intros H1 H2 H3 H4.
  destruct (Hone w1 H1 H2) as [Hr1 Hc1], (Hone w2 H3 H4) as [_ Hc2].
  by rewrite Hc1, Hc2.
Qed.

Lemma store_sitemap_content_witness :
  let w1 := mkWorld ∅ {[ ["out"] ]} [] NoSession 0 in
  let w2 := mkWorld {[ ["out"; "urls.txt"] := "stale" ]} {[ ["out"] ]} [] NoSession 7 in
  let urls := ["https://e.substack.com/p/a"; "https://e.substack.com/p/b"] in
  (store_sitemap ["out"; "urls.txt"] urls w1).1 = Returned tt
  ∧ files (store_sitemap ["out"; "urls.txt"] urls w1).2 !! ["out"; "urls.txt"]
    = Some (urls_txt urls)
  ∧ files (store_sitemap ["out"; "urls.txt"] urls w2).2 !! ["out"; "urls.txt"]
    = files (store_sitemap ["out"; "urls.txt"] urls w1).2 !! ["out"; "urls.txt"].
Proof.
  intros w1 w2 urls.
  apply (store_sitemap_content ["out"; "urls.txt"] urls w1 w2); reflexivity.
Defined.

End StoreSitemap.

(** ** What the steps of the script leave untouched *)

Module Frame.
Import MFacts.

#[export] Instance same_session_quiet : Quiet same_session.
Proof.
  split; [split|..]; unfold same_session.
  - by intros w.
  - intros w1 w2 w3 H1 H2. by rewrite H2.
  - done.
  - done.
Qed.

#[export] Instance keeps_quiet p : Quiet (keeps p).
Proof.
  split; [split|..]; unfold keeps.
  - by intros w.
  - intros w1 w2 w3 H1 H2. by rewrite H2.
  - done.
  - done.
Qed.

#[export] Instance files_grow_quiet : Quiet files_grow.
Proof.
  split; [split|..]; unfold files_grow.
  - by intros w.
  - intros w1 w2 w3 H1 H2 p Hp. by apply H2, H1.
  - done.
  - done.
Qed.

Section QuietSteps.
Context (ext : Externals) (R : relation World) `{!Quiet R}.

Lemma respects_print line : respects R (print line).
Proof. intros w. apply quiet_stdout. Qed.

Lemma respects_tick : respects R tick.
Proof. intros w. apply quiet_clock. Qed.

Lemma respects_http_get url timeout : respects R (http_get ext url timeout).
Proof.
  apply (respects_bind R); [apply respects_tick|intros now].
  destruct (requests_get _ _ _); [apply (respects_ret R)|apply (respects_raise R)].
Qed.

Lemma respects_browser_get driver url : respects R (browser_get ext driver url).
Proof.
  apply (respects_bind R); [apply respects_tick|intros now].
  destruct (driver_get _ _ _); [apply (respects_ret R)|apply (respects_raise R)].
Qed.

Lemma respects_get_article_urls_and_lastmod url timeout :
  respects R (get_article_urls_and_lastmod ext url timeout).
Proof.
  apply (respects_bind R); [apply respects_http_get|intros c].
  apply (respects_ret R).
Qed.

Lemma respects_convert_to content v : respects R (convert_to ext content v).
Proof.
  destruct v as [[]| | |]; first [apply (respects_ret R)|apply (respects_raise R)].
Qed.

Lemma respects_scrape_article_requests url timeout :
  respects R (scrape_article_requests ext url timeout).
Proof.
  apply (respects_bind R); [apply respects_http_get|intros c].
  apply (respects_ret R).
Qed.

Lemma respects_scrape_article_selenium driver url delay :
  respects R (scrape_article_selenium ext driver url delay).
Proof.
  destruct driver as [d|]; [|apply (respects_raise R)].
  apply (respects_bind R); [apply respects_browser_get|intros c].
  apply (respects_bind R); [apply (respects_sleep R)|intros _].
  apply (respects_ret R).
Qed.

End QuietSteps.

(** The file system steps never touch the session. *)
Lemma session_mkdir_parents p : respects same_session (FS.mkdir_parents p).
Proof. intros w. unfold FS.mkdir_parents. by destruct (existsb _ _). Qed.

Lemma session_rmtree p : respects same_session (FS.rmtree_ignore_errors p).
Proof. intros w. unfold FS.rmtree_ignore_errors. by case_bool_decide. Qed.

Lemma session_open_w p : respects same_session (FS.open_w p).
Proof. intros w. unfold FS.open_w. by destruct (_ || _). Qed.

Lemma session_write p s : respects same_session (FS.write p s).
Proof. by intros w. Qed.

(** Steps on other paths keep the file at [p]. *)
Lemma keeps_mkdir_parents p q : respects (keeps p) (FS.mkdir_parents q).
Proof. intros w. unfold FS.mkdir_parents. by destruct (existsb _ _). Qed.

Lemma keeps_rmtree p q :
  ¬ q `prefix_of` p → respects (keeps p) (FS.rmtree_ignore_errors q).
Proof.
  intros Hq w. unfold FS.rmtree_ignore_errors, keeps.
  case_bool_decide; [|done]. simpl.
  destruct (files w !! p) as [c|] eqn:Hp.
  - by apply map_lookup_filter_Some.
  - apply map_lookup_filter_None. left. done.
Qed.

Lemma keeps_open_w p q : q ≠ p → respects (keeps p) (FS.open_w q).
Proof.
  intros Hq w. unfold FS.open_w, keeps. destruct (_ || _); [done|].
  simpl. by rewrite lookup_insert_ne.
Qed.

Lemma keeps_write p q s : q ≠ p → respects (keeps p) (FS.write q s).
Proof. intros Hq w. unfold keeps. simpl. by rewrite lookup_insert_ne. Qed.



Section Compound.
Context (ext : Externals) (R : relation World) `{!Quiet R}.

Lemma respects_store_sitemap path urls :
  respects R (FS.open_w path) → (∀ s, respects R (FS.write path s)) →
  respects R (store_sitemap path urls).
Proof.
  intros Ho Hw. unfold store_sitemap.
  apply (respects_bind R); [done|intros _].
  apply (respects_bind R); [|intros _; by apply respects_print].
  apply (respects_for_each R). intros u. apply Hw.
Qed.

Lemma respects_write_representation od url lastmod content o :
  respects R (FS.open_w (make_file_path url lastmod (od // value o) o)) →
  (∀ s, respects R (FS.write (make_file_path url lastmod (od // value o) o) s)) →
  respects R (write_representation ext od url lastmod content o).
Proof.
  intros Ho Hw. unfold write_representation.
  apply (respects_bind R); [done|intros _].
  apply (respects_bind R); [by apply respects_convert_to|intros c]. apply Hw.
Qed.

Lemma respects_scrape_loop args driver od m urls :
  (∀ u l o, respects R (FS.open_w (make_file_path u l (od // value o) o))) →
  (∀ u l o s, respects R (FS.write (make_file_path u l (od // value o) o) s)) →
  ∀ results, respects R (scrape_loop ext args driver od m urls results).
Proof.
  intros Ho Hw. induction urls as [|url urls IH]; intros results;
    cbn [scrape_loop].
  - apply (respects_ret R).
  - apply (respects_bind R); [by apply respects_print|intros _].
    apply (respects_bind R).
    { destruct (arg_paid args);
        [by apply respects_scrape_article_selenium
        |by apply respects_scrape_article_requests]. }
    intros content. destruct (negb _).
    + apply (respects_bind R); [by apply respects_print|intros _]. apply IH.
    + apply (respects_bind R); [|intros _; apply IH].
      apply (respects_for_each R). intros o.
      by apply respects_write_representation.
Qed.

End Compound.

End Frame.

(** ** Triples: what holds after a run that returns, and after one that raises *)

Module Hoare.
Import MFacts.

Lemma hoare_run {A} P (m : M A) Q E w r w' :
  hoare P m Q E → P w → m w = (r, w') →
  match r with Returned a => Q a w' | Raised e => E e w' end.
Proof. intros H HP Hm. specialize (H w HP). by rewrite Hm in H. Qed.

Lemma hoare_ret {A} (P : World → Prop) (a : A) (Q : A → World → Prop) E :
  (∀ w, P w → Q a w) → hoare P (mret a) Q E.
Proof. intros H w HP. by apply H. Qed.

Lemma hoare_raise {A} (P : World → Prop) e (Q : A → World → Prop) (E : exn → World → Prop) :
  (∀ w, P w → E e w) → hoare P (raise e) Q E.
Proof. intros H w HP. by apply H. Qed.

Lemma hoare_bind {A B} P (m : M A) (k : A → M B) Q1 Q E :
  hoare P m Q1 E → (∀ a, hoare (Q1 a) (k a) Q E) → hoare P (m ≫= k) Q E.
Proof.
  intros Hm Hk w HP. rewrite bind_run. specialize (Hm w HP).
  destruct (m w) as [[a|e] w1]; [|done]. by apply Hk.
Qed.

Lemma hoare_weaken {A} (P P' : World → Prop) (m : M A) (Q Q' : A → World → Prop)
    (E E' : exn → World → Prop) :
  hoare P' m Q' E' →
  (∀ w, P w → P' w) → (∀ a w, Q' a w → Q a w) → (∀ e w, E' e w → E e w) →
  hoare P m Q E.
Proof.
  intros H HP HQ HE w Hw. specialize (H w (HP w Hw)).
  destruct (m w) as [[a|e] w1]; eauto.
Qed.

(** A property that is stable along [R] survives every computation that
    respects [R]. *)
Lemma hoare_stable {A} (R : relation World) (P : World → Prop) (m : M A) :
  (∀ w w', P w → R w w' → P w') → respects R m →
  hoare P m (λ _, P) (λ _, P).
Proof.
  intros Hst Hm w HP. specialize (Hm w).
  destruct (m w) as [[a|e] w1]; simpl in *; eauto.
Qed.

Lemma hoare_for_each {A} (I : World → Prop) (l : list A) (body : A → M unit) E :
  (∀ x, hoare I (body x) (λ _, I) E) →
  hoare I (for_each l body) (λ _, I) E.
Proof.
  intros Hb. induction l as [|x l IH]; simpl.
  - by apply hoare_ret.
  - eapply hoare_bind; [apply Hb|]. intros []. apply IH.
Qed.

(** Facts that do not depend on the world can be taken out of the
    precondition. *)
Lemma hoare_pure {A} (φ : Prop) (P : World → Prop) (m : M A) Q E :
  (φ → hoare P m Q E) → hoare (λ w, φ ∧ P w) m Q E.
Proof. intros H w [Hφ HP]. by apply H. Qed.

Lemma hoare_assume {A} (φ : Prop) (m : M A) Q E :
  (φ → hoare (λ _, True) m Q E) → hoare (λ _, φ) m Q E.
Proof. intros H w Hφ. by apply H. Qed.

Lemma hoare_trivial {A} (P : World → Prop) (m : M A) :
  hoare P m (λ _ _, True) (λ _ _, True).
Proof. intros w _. by destruct (m w) as [[a|e] w1]. Qed.

(** A bind whose first computation returns at once. *)
Lemma hoare_ret_bind {A B} P (a : A) (k : A → M B) Q E :
  hoare P (k a) Q E → hoare P (mret a ≫= k) Q E.
Proof. intros H w. exact (H w). Qed.

End Hoare.

(** ** The sitemap reader *)

Section SitemapReader.
Variable ext : Externals.

(** [find] gives a child with the searched name when nothing before it in
    the element has that name: for an element of a plain sitemap, the [loc]
    found is its [<loc>] child. *)
Lemma find_first_child name tag_name classes before child after :
  Soup.tag_named name child = true →
  (∀ d, d ∈ List.flat_map (λ c, c :: Soup.descendants c) before →
        Soup.tag_named name d = false) →
  Soup.find name (Tag tag_name classes (before ++ child :: after)) = Some child.
Proof.
  intros Hchild Hbefore. unfold Soup.find. cbn [Soup.descendants].
  rewrite List.flat_map_app. cbn [List.flat_map].
  induction (List.flat_map _ before) as [|d ds IH]; simpl.
  - by rewrite Hchild.
  - rewrite (Hbefore d); [|by left]. apply IH.
    intros d' Hd'. apply Hbefore. by right.
Qed.

Lemma sitemap_step_spec urls m url_tag :
  sitemap_step (urls, m) url_tag
  = match loc_of url_tag with
    | Some u => (urls ++ [u], <[u := lastmod_of url_tag]> m)
    | None => (urls, m)
    end.
Proof.
  unfold sitemap_step, loc_of, lastmod_of.
  destruct (Soup.find "loc" url_tag); [|done].
  by destruct (Soup.find "lastmod" url_tag).
Qed.

(** The list the loop builds: the [loc] texts, in the order of the
    elements. *)
Lemma fold_sitemap_urls tags : ∀ urls m,
  (fold_left sitemap_step tags (urls, m)).1 = urls ++ omap loc_of tags.
Proof.
  induction tags as [|t tags IH]; intros urls m; cbn [fold_left].
  - by rewrite app_nil_r.
  - rewrite sitemap_step_spec.
    change (omap loc_of (t :: tags)) with
      (match loc_of t with
       | Some u => u :: omap loc_of tags
       | None => omap loc_of tags
       end).
    destruct (loc_of t) as [u|].
    + rewrite IH. by rewrite <- List.app_assoc.
    + apply IH.
Qed.

(** An address that no element has keeps what the mapping had for it. *)
Lemma fold_sitemap_other tags u : ∀ urls m,
  u ∉ omap loc_of tags →
  (fold_left sitemap_step tags (urls, m)).2 !! u = m !! u.
Proof.
  induction tags as [|t tags IH]; intros urls m Hu; cbn [fold_left]; [done|].
  rewrite sitemap_step_spec.
  change (omap loc_of (t :: tags)) with
    (match loc_of t with
     | Some u => u :: omap loc_of tags
     | None => omap loc_of tags
     end) in Hu.
  destruct (loc_of t) as [u'|].
  - apply not_elem_of_cons in Hu as [Hne Hu].
    rewrite IH; [|done]. by apply lookup_insert_ne.
  - by apply IH.
Qed.

(** The mapping gives an address the [lastmod] of the last element that has
    it. *)
Lemma fold_sitemap_last tags : ∀ urls m i t u,
  tags !! i = Some t → loc_of t = Some u →
  (∀ j t', i < j → tags !! j = Some t' → loc_of t' ≠ Some u) →
  (fold_left sitemap_step tags (urls, m)).2 !! u = Some (lastmod_of t).
Proof.
  induction tags as [|t0 tags IH]; intros urls m i t u Hi Hloc Hlast; [done|].
  cbn [fold_left]. rewrite sitemap_step_spec. destruct i as [|i]; simpl in Hi.
  - injection Hi as ->. rewrite Hloc. rewrite fold_sitemap_other.
    + apply lookup_insert_eq.
    + intros (t' & Ht' & Hu)%list_elem_of_omap.
      apply list_elem_of_lookup in Ht' as [j Hj].
      apply (Hlast (S j) t'); [lia|done|done].
  - assert (∀ urls' m', (fold_left sitemap_step tags (urls', m')).2 !! u
                        = Some (lastmod_of t)) as Hrest.
    { intros urls' m'. apply (IH urls' m' i t u Hi Hloc).
      intros j t' Hj Ht'. apply (Hlast (S j) t'); [lia|done]. }
    destruct (loc_of t0); apply Hrest.
Qed.

Lemma omap_length_filter tags :
  length (omap loc_of tags) = length (List.filter has_loc tags).
Proof.
  induction tags as [|t tags IH]; [done|].
  change (omap loc_of (t :: tags)) with
    (match loc_of t with
     | Some u => u :: omap loc_of tags
     | None => omap loc_of tags
     end).
  change (List.filter has_loc (t :: tags)) with
    (if has_loc t then t :: List.filter has_loc tags
     else List.filter has_loc tags).
  unfold has_loc at 1, loc_of at 1.
  destruct (Soup.find "loc" t); simpl; by rewrite IH.
Qed.

(** An element with a child of the searched name has that name below it:
    [find] returns some element. *)
Lemma child_named_find name n :
  is_Some (child_named name n) → is_Some (Soup.find name n).
Proof.
  destruct n as [s|nm classes cs]; cbn [child_named]; [by intros [? ?]|].
  intros [c Hc]. apply List.find_some in Hc as [Hin Hc].
  unfold Soup.find. destruct (List.find _ _) eqn:Hf; [by eauto|].
  pose proof (List.find_none _ _ Hf c) as Hnone. cbn [Soup.descendants] in Hnone.
  rewrite Hnone in Hc; [done|].
  apply in_flat_map. exists c. split; [done|by left].
Qed.

Lemma filter_has_loc_child_length tags :
  (length (List.filter has_loc_child tags) <= length (List.filter has_loc tags))%nat.
Proof.
  induction tags as [|t tags IH]; [done|].
  cbn [List.filter]. destruct (has_loc_child t) eqn:Hc.
  - assert (has_loc t = true) as ->.
    { apply bool_decide_eq_true, child_named_find.
      by apply bool_decide_eq_true in Hc. }
    simpl. lia.
  - destruct (has_loc t); simpl; lia.
Qed.

(** C8, as the code has it.  When the sitemap is retrieved, the reader
    returns the [loc] texts of the [<url>] elements that have a [<loc>]
    below them, in document order: as many addresses as there are such
    elements, an element without [<loc>] contributing nothing.  The [<loc>]
    of an element is the one [find] returns, the first anywhere below the
    element and not only a child of it, so the addresses are at least as
    many as the elements with a [<loc>] child.  The mapping holds exactly
    the returned addresses and gives each the [<lastmod>] text of its
    element (of the last one, when several elements have the same address),
    the empty string when that element has no [<lastmod>]. *)
Theorem get_article_urls_and_lastmod_spec sitemap_url timeout w content :
  requests_get ext (clock w) sitemap_url = Some content →
  let entries := Soup.find_all "url" (parse_xml ext content) in
  ∃ urls url_to_lastmod,
    get_article_urls_and_lastmod ext sitemap_url timeout w
    = (Returned (urls, url_to_lastmod), with_clock (S (clock w)) w)
    ∧ urls = omap loc_of entries
    ∧ length urls = length (List.filter has_loc entries)
    ∧ (∀ i url_tag u,
         entries !! i = Some url_tag → loc_of url_tag = Some u →
         (∀ j later, i < j → entries !! j = Some later → loc_of later ≠ Some u) →
         url_to_lastmod !! u = Some (lastmod_of url_tag))
    ∧ (∀ u, is_Some (url_to_lastmod !! u) → u ∈ urls)
    ∧ (length (List.filter has_loc_child entries) <= length urls)%nat.
Proof.
  intros Hget entries.
  exists (read_sitemap (parse_xml ext content)).1,
         (read_sitemap (parse_xml ext content)).2.
  assert ((read_sitemap (parse_xml ext content)).1 = omap loc_of entries) as Hurls.
  { unfold read_sitemap. by rewrite fold_sitemap_urls. }
  split_and!.
  - unfold get_article_urls_and_lastmod, http_get, tick.
    rewrite !MFacts.bind_run. simpl. rewrite Hget. simpl.
    by destruct (read_sitemap _).
  - done.
  - rewrite Hurls. apply omap_length_filter.
  - intros i t u Hi Hloc Hlast. by eapply fold_sitemap_last.
  - intros u Hu. rewrite Hurls.
    destruct (decide (u ∈ omap loc_of entries)) as [|Hn]; [done|].
    unfold read_sitemap in Hu. rewrite (fold_sitemap_other _ _ _ _ Hn) in Hu.
    rewrite lookup_empty in Hu. by destruct Hu.
  - rewrite Hurls, omap_length_filter. apply filter_has_loc_child_length.
Qed.

End SitemapReader.

(** ** The orchestrator *)

Section Orchestrator.
Import MFacts Frame Hoare PathFacts.
Variable ext : Externals.

(** Unfolds the primitive steps of the monad and reduces the binds whose
    first computation is known. *)
Ltac run_prims :=
  cbv [mbind M_bind mret M_ret selenium_login browser_get driver_quit
       get_article_urls_and_lastmod http_get tick print modify read_local raise];
  cbn [clock stdout session files dirs fst snd
       with_clock with_stdout with_session with_files with_dirs].

(** One step of a run during which the session stays open. *)
Lemma session_open_step {A} (m : M A) :
  respects same_session m →
  hoare (λ w, session w = SessionOpen) m
    (λ _ w, session w = SessionOpen) (λ _ w, session w = SessionOpen).
Proof.
  apply (Hoare.hoare_stable same_session). intros w1 w2 H1 H2.
  by rewrite H2.
Qed.

Lemma session_scrape_loop args driver od m urls results :
  respects same_session (scrape_loop ext args driver od m urls results).
Proof.
  apply Frame.respects_scrape_loop; [apply _|..]; intros;
    [apply Frame.session_open_w|apply Frame.session_write].
Qed.

(** C4, as the code has it.  In paid mode the session is closed when [main]
    returns, that is when the loop has completed (with or without
    successes) and the summary is written.  When [main] ends with an
    exception the session is not released: it is still open, unless the
    exception came from creating the output directory, before the login,
    and the world is as it was. *)
Theorem session_release args w r w' :
  arg_paid args = true →
  main ext args w = (r, w') →
  match r with
  | Returned _ => session w' = SessionClosed
  | Raised _ => session w' = SessionOpen ∨ w' = w
  end.
Proof.
  intros Hpaid Hm.
  refine (Hoare.hoare_run (λ w0, w0 = w) _ (λ _ w1, session w1 = SessionClosed)
            (λ _ w1, session w1 = SessionOpen ∨ w1 = w) _ _ _ _ eq_refl Hm).
  unfold main. rewrite Hpaid.
  eapply Hoare.hoare_bind with (Q1 := λ _ _, True).
  { destruct (negb _); [|by apply Hoare.hoare_ret].
    intros w0 ->. rewrite bind_run. unfold FS.mkdir_parents.
    destruct (existsb _ _); simpl; by auto. }
  intros output_dir.
  eapply Hoare.hoare_weaken with
    (P' := λ _, True) (Q' := λ _ w1, session w1 = SessionClosed)
    (E' := λ _ w1, session w1 = SessionOpen); [|by auto..].
  eapply Hoare.hoare_bind with
    (Q1 := λ driver w1, driver = Some ChromeDriver ∧ session w1 = SessionOpen).
  { intros w0 _. run_prims. by destruct (driver_get ext _ _). }
  intros driver. apply hoare_pure. intros ->.
  eapply Hoare.hoare_bind;
    [apply session_open_step, Frame.respects_print, _|intros ?].
  eapply Hoare.hoare_bind;
    [apply session_open_step, Frame.respects_get_article_urls_and_lastmod, _
    |intros [urls url_to_lastmod]].
  eapply Hoare.hoare_bind;
    [apply session_open_step, Frame.respects_print, _|intros ?].
  eapply Hoare.hoare_bind;
    [apply session_open_step, (respects_read_local same_session)|intros od].
  eapply Hoare.hoare_bind; [apply session_open_step|intros ?].
  { apply Frame.respects_store_sitemap; [apply _|..]; intros;
      [apply Frame.session_open_w|apply Frame.session_write]. }
  eapply Hoare.hoare_bind; [apply session_open_step|intros ?].
  { apply (respects_for_each same_session). intros o.
    apply (respects_bind same_session);
      [apply Frame.session_rmtree|intros _; apply Frame.session_mkdir_parents]. }
  eapply Hoare.hoare_bind;
    [apply session_open_step, session_scrape_loop|intros results].
  eapply Hoare.hoare_bind;
    [apply session_open_step, Frame.session_open_w|intros ?].
  eapply Hoare.hoare_bind;
    [apply session_open_step, Frame.session_write|intros ?].
  eapply Hoare.hoare_bind;
    [apply session_open_step, Frame.respects_print, _|intros ?].
  intros w0 _. reflexivity.
Qed.

(** A retrieval that returned did not fail. *)
Lemma fetch_returned args driver url :
  hoare (λ _, True)
    (if arg_paid args
     then scrape_article_selenium ext driver url (arg_delay args)
     else scrape_article_requests ext url TIMEOUT_SECONDS)
    (λ _ _, ¬ fetch_fails ext args url) (λ _ _, True).
Proof.
  intros w _. unfold fetch_fails.
  destruct (arg_paid args).
  - destruct driver as [d|]; [|done]. unfold scrape_article_selenium.
    run_prims. destruct (driver_get ext (clock w) url) eqn:Hg; [|done].
    unfold sleep. destruct (_ <? _)%Z; [done|].
    intros Hf. specialize (Hf (clock w)). congruence.
  - unfold scrape_article_requests. run_prims.
    destruct (requests_get ext (clock w) url) eqn:Hg; [|done].
    intros Hf. specialize (Hf (clock w)). congruence.
Qed.

(** The loop returns only if every retrieval returned. *)
Lemma scrape_loop_returned args driver od m urls : ∀ results,
  hoare (λ _, True) (scrape_loop ext args driver od m urls results)
    (λ _ _, ∀ u, u ∈ urls → ¬ fetch_fails ext args u) (λ _ _, True).
Proof.
  induction urls as [|url urls IH]; intros results; cbn [scrape_loop].
  - apply hoare_ret. intros w _ u Hu. by apply elem_of_nil in Hu.
  - eapply hoare_bind; [apply hoare_trivial|intros ?].
    eapply hoare_bind; [apply fetch_returned|intros content].
    apply (hoare_assume (¬ fetch_fails ext args url)). intros Hurl.
    assert (∀ res, hoare (λ _, True) (scrape_loop ext args driver od m urls res)
              (λ _ _, ∀ u, u ∈ url :: urls → ¬ fetch_fails ext args u)
              (λ _ _, True)) as IH'.
    { intros res. eapply hoare_weaken; [apply (IH res)|done| |done].
      intros ? ? Hrest u [->|Hu]%elem_of_cons; by auto. }
    destruct (negb _).
    + eapply hoare_bind; [apply hoare_trivial|intros ?]. apply IH'.
    + eapply hoare_bind; [apply hoare_trivial|intros ?]. apply IH'.
Qed.

(** [main] does not return when an address of the sitemap cannot be
    retrieved. *)
Lemma main_returned_all_fetched args :
  (∀ now content,
     requests_get ext now (sitemap_url_of args) = Some content →
     ∃ u, u ∈ (read_sitemap (parse_xml ext content)).1 ∧ fetch_fails ext args u) →
  hoare (λ _, True) (main ext args) (λ _ _, False) (λ _ _, True).
Proof.
  intros Hfail. unfold main.
  eapply hoare_bind; [apply hoare_trivial|intros output_dir].
  eapply hoare_bind; [apply hoare_trivial|intros driver].
  eapply hoare_bind; [apply hoare_trivial|intros ?].
  eapply hoare_bind with
    (Q1 := λ r _, ∃ u, u ∈ r.1 ∧ fetch_fails ext args u).
  { intros w _. run_prims. fold (sitemap_url_of args).
    destruct (requests_get ext (clock w) _) eqn:Hg; [|done].
    by apply (Hfail _ _ Hg). }
  intros [urls url_to_lastmod].
  apply (hoare_assume (∃ u, u ∈ urls ∧ fetch_fails ext args u)).
  intros (u & Hu & Hf).
  eapply hoare_bind; [apply hoare_trivial|intros ?].
  eapply hoare_bind; [apply hoare_trivial|intros od].
  eapply hoare_bind; [apply hoare_trivial|intros ?].
  eapply hoare_bind; [apply hoare_trivial|intros ?].
  eapply hoare_bind; [apply scrape_loop_returned|intros results].
  apply (hoare_assume (∀ u, u ∈ urls → ¬ fetch_fails ext args u)).
  intros Hall. by destruct (Hall u Hu).
Qed.

Lemma keeps_step {A} p w (m : M A) :
  respects (keeps p) m →
  hoare (keeps p w) m (λ _, keeps p w) (λ _, keeps p w).
Proof.
  apply (hoare_stable (keeps p)). intros w1 w2 H1 H2.
  unfold keeps in *. by rewrite H2.
Qed.

(** Until it opens the manifest, [main] does not touch it: a run that
    raises leaves the file at the manifest's path as it was. *)
Lemma main_raised_keeps_summary args w :
  hoare (λ w0, w0 = w) (main ext args)
    (λ _ _, True) (λ _ w', keeps (summary_path_of args) w w').
Proof.
  unfold main, summary_path_of.
  set (X := PyPath.of_string (arg_output args)).
  set (sp := X // "summary.json").
  eapply hoare_bind with
    (Q1 := λ od w1, (od = None ∨ od = Some X) ∧ keeps sp w w1).
  { destruct (negb _).
    - eapply hoare_bind with (Q1 := λ _, keeps sp w).
      + eapply hoare_weaken;
          [apply (keeps_step sp w), keeps_mkdir_parents
          |intros ? ->; by unfold keeps|done..].
      + intros ?. apply hoare_ret. by auto.
    - apply hoare_ret. intros ? ->. by unfold keeps; auto. }
  intros output_dir. apply hoare_pure. intros Hod.
  eapply hoare_bind with (Q1 := λ _, keeps sp w).
  { apply keeps_step. destruct (arg_paid args).
    - apply (respects_bind (keeps sp)); [apply respects_print, _|intros _].
      apply (respects_bind (keeps sp)); [|intros d; apply (respects_ret (keeps sp))].
      unfold selenium_login.
      apply (respects_bind (keeps sp)); [by intros ?|intros _].
      apply (respects_bind (keeps sp)); [apply respects_browser_get, _|intros _].
      apply (respects_bind (keeps sp)); [apply respects_print, _|intros _].
      apply (respects_bind (keeps sp)); [apply respects_print, _|intros _].
      apply (respects_ret (keeps sp)).
    - apply (respects_bind (keeps sp)); [apply respects_print, _|intros _].
      apply (respects_ret (keeps sp)). }
  intros driver.
  eapply hoare_bind; [apply keeps_step, respects_print, _|intros ?].
  eapply hoare_bind;
    [apply keeps_step, respects_get_article_urls_and_lastmod, _
    |intros [urls url_to_lastmod]].
  eapply hoare_bind; [apply keeps_step, respects_print, _|intros ?].
  destruct Hod as [-> | ->]; [by apply hoare_raise|].
  apply (hoare_ret_bind _ X).
  assert (sp = X ++ ["summary.json"]) as Hsp by reflexivity.
  assert (X // "urls.txt" ≠ sp) as Hother.
  { rewrite Hsp. change (X // "urls.txt") with (X ++ ["urls.txt"]).
    by intros ?%app_inv_head. }
  eapply hoare_bind; [apply keeps_step|intros ?].
  { apply respects_store_sitemap; [apply _|..]; intros;
      [apply keeps_open_w|apply keeps_write]; by apply Hother. }
  eapply hoare_bind; [apply keeps_step|intros ?].
  { apply (respects_for_each (keeps sp)). intros o.
    apply (respects_bind (keeps sp));
      [apply keeps_rmtree|intros _; apply keeps_mkdir_parents].
    rewrite Hsp. intros [k Hk].
    destruct o; cbn in Hk; rewrite <- List.app_assoc in Hk;
      by apply app_inv_head in Hk. }
  eapply hoare_bind; [apply keeps_step|intros results].
  { apply respects_scrape_loop; [apply _|..]; intros;
      [apply keeps_open_w|apply keeps_write];
      rewrite Hsp; apply make_file_path_not_reserved; by left. }
  intros w0 Hw0. rewrite bind_run. unfold FS.open_w.
  destruct (_ || _); [done|]. run_prims. by destruct driver.
Qed.






(** ** Pages without the article container *)

Lemma find_class_missing name cls soup :
  (∀ d, d ∈ Soup.descendants soup →
        Soup.tag_named name d && Soup.has_class cls d = false) →
  Soup.find_class name cls soup = None.
Proof.
  unfold Soup.find_class. induction (Soup.descendants soup) as [|d ds IH]; [done|].
  intros Hall. simpl. rewrite (Hall d); [|by left].
  apply IH. intros d' Hd'. apply Hall. by right.
Qed.

(** What a returning [write_representation] leaves: the converted content at
    the planned path, and every other file as it was. *)
Lemma write_representation_returned od url lastmod content o w w' :
  write_representation ext od url lastmod content o w = (Returned tt, w') →
  files w' !! make_file_path url lastmod (od // value o) o
  = Some (match o with HTML => content | MD => markdownify ext content end)
  ∧ ∀ q, q ≠ make_file_path url lastmod (od // value o) o →
         files w' !! q = files w !! q.
Proof.
  unfold write_representation. set (p := make_file_path _ _ _ _).
  intros (? & w1 & Hopen & Hrun)%bind_returned_inv.
  unfold FS.open_w in Hopen. destruct (_ || _); [done|].
  injection Hopen as _ <-.
  assert (convert_to ext content (PyMember o) (with_files (<[p:=""]> (files w)) w)
          = (Returned (match o with HTML => content | MD => markdownify ext content end),
             with_files (<[p:=""]> (files w)) w)) as Hconv by by destruct o.
  cbv beta in Hrun. rewrite (bind_returned _ _ _ _ _ Hconv) in Hrun.
  injection Hrun as <-. simpl. rewrite !lookup_insert_eq. split; [done|].
  intros q Hq. by rewrite !lookup_insert_ne.
Qed.

Lemma make_file_path_html_md url lastmod od :
  make_file_path url lastmod (od // value MD) MD
  ≠ make_file_path url lastmod (od // value HTML) HTML.
Proof.
  intros Heq. apply (f_equal (λ p, List.last p "")) in Heq.
  rewrite !make_file_path_last in Heq.
  by do 2 apply String.app_inj in Heq.
Qed.

(** C2 on the code.  A page without the container is not skipped: the
    extraction gives the text ["None"], which is truthy, so when the loop
    returns for such an address the address is in the manifest and its two
    files hold ["None"] and the conversion of ["None"]. *)
Theorem missing_container_not_skipped args driver od m url results w content r w' :
  arg_paid args = false →
  requests_get ext (clock w) url = Some content →
  (∀ d, d ∈ Soup.descendants (parse_lxml ext content) →
        Soup.tag_named "div" d && Soup.has_class "available-content" d = false) →
  scrape_loop ext args driver od m [url] results w = (Returned r, w') →
  extract_article_html ext (parse_lxml ext content) = "None"
  ∧ r = results ++ [(url, default "" (m !! url))]
  ∧ files w' !! make_file_path url (default "" (m !! url)) (od // value HTML) HTML
    = Some "None"
  ∧ files w' !! make_file_path url (default "" (m !! url)) (od // value MD) MD
    = Some (markdownify ext "None").
Proof.
  intros Hpaid Hget Hmissing Hrun.
  assert (extract_article_html ext (parse_lxml ext content) = "None") as Hnone.
  { unfold extract_article_html. by rewrite (find_class_missing _ _ _ Hmissing). }
  split; [done|].
  cbn [scrape_loop] in Hrun. rewrite Hpaid in Hrun.
  apply bind_returned_inv in Hrun as (? & w1 & Hprint & Hrun).
  injection Hprint as _ <-.
  assert (scrape_article_requests ext url TIMEOUT_SECONDS
            (with_stdout (stdout w ++ ["Scraping " +:+ url]) w)
          = (Returned "None",
             with_clock (S (clock w))
               (with_stdout (stdout w ++ ["Scraping " +:+ url]) w))) as Hfetch.
  { unfold scrape_article_requests. run_prims. by rewrite Hget, Hnone. }
  cbv beta in Hrun. rewrite (bind_returned _ _ _ _ _ Hfetch) in Hrun.
  change (negb (PyStr.truthy "None")) with false in Hrun. cbv iota in Hrun.
  apply bind_returned_inv in Hrun as ([] & w3 & Hwrite & Hrun).
  injection Hrun as <- <-. split; [done|].
  unfold OutputOption_members in Hwrite. cbn [for_each] in Hwrite.
  apply bind_returned_inv in Hwrite as ([] & w2 & Hhtml & Hwrite).
  apply bind_returned_inv in Hwrite as ([] & w2' & Hmd & Hwrite).
  injection Hwrite as <-.
  apply write_representation_returned in Hhtml as [Hhtml _].
  apply write_representation_returned in Hmd as [Hmd Hothers].
  split; [|done]. rewrite Hothers; [done|].
  intros Heq. by apply (make_file_path_html_md url (default "" (m !! url)) od).
Qed.

(** C1, as the code has it.  Nothing catches the exception of a retrieval:
    when the sitemap lists an address whose retrieval raises, [main] ends
    with an exception and the manifest is not written (the file at its path
    is as it was before the run). *)
Theorem fetch_failure_aborts args w :
  (∀ now content,
     requests_get ext now (sitemap_url_of args) = Some content →
     ∃ u, u ∈ (read_sitemap (parse_xml ext content)).1 ∧ fetch_fails ext args u) →
  ∃ e w', main ext args w = (Raised e, w')
          ∧ files w' !! summary_path_of args = files w !! summary_path_of args.
Proof.
  intros Hfail.
  pose proof (main_returned_all_fetched args Hfail w I) as H1.
  pose proof (main_raised_keeps_summary args w w eq_refl) as H2.
  destruct (main ext args w) as [[results|e] w']; [done|].
  by exists e, w'.
Qed.

(** X15.  The list of addresses survives the rest of the run: when [main]
    returns, [urls.txt] holds the addresses of the sitemap that was
    retrieved, each followed by a newline. *)
Lemma main_persists_urls_txt args w results w' :
  main ext args w = (Returned results, w') →
  ∃ now content,
    requests_get ext now (sitemap_url_of args) = Some content
    ∧ files w' !! (PyPath.of_string (arg_output args) // "urls.txt")
      = Some (urls_txt (read_sitemap (parse_xml ext content)).1).
Proof.
  intros Hm. set (X := PyPath.of_string (arg_output args)).
  refine (hoare_run (λ _, True) _
            (λ _ w1, ∃ now content,
               requests_get ext now (sitemap_url_of args) = Some content
               ∧ files w1 !! (X // "urls.txt")
                 = Some (urls_txt (read_sitemap (parse_xml ext content)).1))
            (λ _ _, True) _ _ _ _ I Hm).
  unfold main.
  eapply hoare_bind with (Q1 := λ od _, od = None ∨ od = Some X).
  { destruct (negb _).
    - eapply hoare_bind; [apply hoare_trivial|intros ?].
      apply hoare_ret. by auto.
    - apply hoare_ret. by auto. }
  intros output_dir. apply (hoare_assume (output_dir = None ∨ output_dir = Some X)).
  intros Hod.
  eapply hoare_bind; [apply hoare_trivial|intros driver].
  eapply hoare_bind; [apply hoare_trivial|intros ?].
  eapply hoare_bind with
    (Q1 := λ r _, ∃ now content,
             requests_get ext now (sitemap_url_of args) = Some content
             ∧ r = read_sitemap (parse_xml ext content)).
  { intros w0 _. run_prims. fold (sitemap_url_of args).
    destruct (requests_get ext (clock w0) _) eqn:Hg; [|done]. by eauto. }
  intros r.
  apply (hoare_assume (∃ now content,
           requests_get ext now (sitemap_url_of args) = Some content
           ∧ r = read_sitemap (parse_xml ext content))).
  intros (now & content & Hget & ->).
  destruct (read_sitemap (parse_xml ext content)) as [urls url_to_lastmod] eqn:Hrs.
  eapply hoare_bind; [apply hoare_trivial|intros ?].
  destruct Hod as [-> | ->]; [by apply hoare_raise|].
  apply (hoare_ret_bind _ X).
  set (p := X // "urls.txt").
  assert (p = X ++ ["urls.txt"]) as Hp by reflexivity.
  set (P := λ w1 : World, files w1 !! p = Some (urls_txt urls)).
  assert (∀ A (m : M A), respects (keeps p) m → hoare P m (λ _, P) (λ _ _, True))
    as Hstep.
  { intros A m Hr. eapply hoare_weaken;
      [apply (hoare_stable (keeps p) P m)|done..]; [|done].
    intros w1 w2 H1 H2. unfold P, keeps in *. by rewrite H2. }
  eapply hoare_bind with (Q1 := λ _, P).
  { intros w0 _. destruct (store_sitemap p urls w0) as [[[]|e] w1] eqn:Hs; [|done].
    by apply store_sitemap_returned in Hs. }
  intros ?.
  eapply hoare_bind; [apply Hstep|intros ?].
  { apply (respects_for_each (keeps p)). intros o.
    apply (respects_bind (keeps p));
      [apply keeps_rmtree|intros _; apply keeps_mkdir_parents].
    rewrite Hp. intros [k Hk].
    destruct o; cbn in Hk; rewrite <- List.app_assoc in Hk;
      by apply app_inv_head in Hk. }
  eapply hoare_bind; [apply Hstep|intros res].
  { apply respects_scrape_loop; [apply _|..]; intros;
      [apply keeps_open_w|apply keeps_write];
      rewrite Hp; apply make_file_path_not_reserved; by right. }
  assert (X // "summary.json" ≠ p) as Hsp.
  { rewrite Hp. change (X // "summary.json") with (X ++ ["summary.json"]).
    by intros ?%app_inv_head. }
  eapply hoare_bind; [apply Hstep, keeps_open_w, Hsp|intros ?].
  eapply hoare_bind; [apply Hstep, keeps_write, Hsp|intros ?].
  eapply hoare_bind; [apply Hstep, respects_print, _|intros ?].
  eapply hoare_bind; [apply Hstep|intros ?].
  { destruct driver; [by intros ?|apply (respects_ret (keeps p))]. }
  apply hoare_ret. intros w0 H0. exists now, content.
  split; [exact Hget|]. rewrite Hrs. exact H0.
Qed.

(** C3.  With the default output directory ["."] the variable [output_dir]
    is never assigned: [main] ends with an exception and has written no file
    and created no directory.  The exception is the [UnboundLocalError] of
    the first read of [output_dir], unless the login or the retrieval of the
    sitemap raised before that read. *)
Theorem main_default_output_fails args w :
  arg_output args = "." →
  ∃ e w', main ext args w = (Raised e, w')
          ∧ files w' = files w ∧ dirs w' = dirs w
          ∧ (e = UnboundLocalError "output_dir"
             ∨ e = WebDriverException sign_in_url
             ∨ e = RequestException (sitemap_url_of args))
          ∧ ((∀ now, is_Some (requests_get ext now (sitemap_url_of args))) →
             (∀ now, is_Some (driver_get ext now sign_in_url)) →
             e = UnboundLocalError "output_dir").
Proof.
  intros Hout. unfold main. rewrite Hout.
  change (negb ("." =? ".")%string) with false. cbv iota.
  unfold sitemap_url_of, sign_in_url.
  destruct (arg_paid args); run_prims.
  - destruct (driver_get ext _ _) eqn:Hd.
    + destruct (requests_get ext _ _) eqn:Hr.
      * destruct (read_sitemap _). eexists _, _. by eauto 10.
      * eexists _, _. split_and!; [done..|by auto|].
        intros Hs _. specialize (Hs (S (clock w))). simpl in Hr.
        rewrite Hr in Hs. by destruct Hs.
    + eexists _, _. split_and!; [done..|by auto|].
      intros _ Hs. specialize (Hs (clock w)). rewrite Hd in Hs. by destruct Hs.
  - destruct (requests_get ext _ _) eqn:Hr.
    + destruct (read_sitemap _). eexists _, _. by eauto 10.
    + eexists _, _. split_and!; [done..|by auto|].
      intros Hs _. specialize (Hs (clock w)). rewrite Hr in Hs. by destruct Hs.
Qed.

End Orchestrator.

(** ** Runs in the concrete world *)

Section ConcreteRuns.
Import Demo DemoMore.

(** What the reader makes of the sitemap of the concrete world. *)
Example demo_sitemap_urls :
  (read_sitemap sitemap).1 = [url_a; url_b; url_c]
  ∧ (read_sitemap sitemap).2 !! url_a = Some "2024-03-05T12:00:00Z"
  ∧ (read_sitemap sitemap).2 !! url_c = Some "".
Proof. vm_compute. done. Qed.

(** An element without [<loc>] is skipped and the order of the others is
    kept. *)
Example sitemap_entry_without_loc :
  (read_sitemap
     (Tag "urlset" []
        [url_entry url_a None;
         Tag "url" [] [Tag "lastmod" [] [NavigableString "2024-01-01"]];
         url_entry url_c (Some "2024-03-07")])).1
  = [url_a; url_c].
Proof. reflexivity. Qed.

Example loc_of_plain_entry loc lastmod :
  loc_of (url_entry loc lastmod) = Some loc
  ∧ lastmod_of (url_entry loc lastmod) = default "" lastmod.
Proof.
  unfold loc_of, lastmod_of, url_entry.
  destruct lastmod as [d|]; split; cbn; by rewrite ?PyStrFacts.app_nil_r.
Qed.

(** C1, as stated, fails: in a run over the three-entry sitemap whose second
    retrieval raises, the exception ends the run.  No manifest is written and
    the third address is never processed. *)
Lemma fetch_failure_counterexample :
  let r := main (world_of [url_b] []) args_free w0 in
  (read_sitemap sitemap).1 = [url_a; url_b; url_c]
  ∧ r.1 = Raised (RequestException url_b)
  ∧ files r.2 !! ["out"; "summary.json"] = None
  ∧ files r.2 !! ["out"; "html"; "c.html"] = None
  ∧ List.last (stdout r.2) "" = "Scraping https://e.substack.com/p/b".
Proof. vm_compute. done. Qed.

Lemma fetch_failure_aborts_witness :
  ∃ e w', main (world_of [url_b] []) args_free w0 = (Raised e, w')
          ∧ files w' !! summary_path_of args_free
            = files w0 !! summary_path_of args_free.
Proof.
  apply (fetch_failure_aborts (world_of [url_b] []) args_free w0).
  intros now content _. exists url_b. split.
  - change (url_b ∈ [url_a; url_b; url_c]).
    apply list_elem_of_further, list_elem_of_here.
  - intros t. reflexivity.
Defined.

(** A whole run in which the page of the second address has no container:
    the address is in the manifest and its files hold the text ["None"]. *)
Example missing_container_run :
  let r := main (world_of [] [url_b]) args_free w0 in
  r.1 = Returned [(url_a, "2024-03-05T12:00:00Z"); (url_b, "2024-03-06T08:30:00Z");
                  (url_c, "")]
  ∧ files r.2 !! ["out"; "html"; "2024-03-06_b.html"] = Some "None"
  ∧ files r.2 !! ["out"; "md"; "2024-03-06_b.md"] = Some "md:None"
  ∧ ¬ "No content found for https://e.substack.com/p/b, skipping." ∈ stdout r.2.
Proof.
  vm_compute. split_and!; [done..|].
  intros H. repeat (apply elem_of_cons in H as [H|H]; [discriminate H|]).
  by apply elem_of_nil in H.
Qed.

Lemma missing_container_not_skipped_witness :
  let w := mkWorld ∅ {[ ["out"; "html"]; ["out"; "md"] ]} [] NoSession 1 in
  let r := scrape_loop (world_of [] [url_b]) args_free None ["out"] ∅ [url_b] [] w in
  extract_article_html (world_of [] [url_b]) (parse_lxml (world_of [] [url_b]) url_b)
  = "None"
  ∧ r.1 = Returned [(url_b, "")]
  ∧ files r.2 !! ["out"; "html"; "b.html"] = Some "None"
  ∧ files r.2 !! ["out"; "md"; "b.md"] = Some "md:None".
Proof.
  intros w r.
  destruct (missing_container_not_skipped (world_of [] [url_b]) args_free None
              ["out"] ∅ url_b [] w url_b [(url_b, "")] r.2)
    as (H1 & H2 & H3 & H4).
  - reflexivity.
  - reflexivity.
  - apply Forall_forall. vm_compute. repeat constructor.
  - vm_compute. reflexivity.
  - split_and!; [exact H1|reflexivity|exact H3|exact H4].
Defined.

Lemma convert_to_html_identity_witness :
  convert_to (world_of [] []) "<div>text</div>" (PyStrValue "html") w0
  = (Raised (ValueError "Unsupported output option: html"), w0).
Proof.
  apply (proj2 (convert_to_html_identity (world_of [] []) "<div>text</div>" w0)
           (PyStrValue "html")).
  intros o. discriminate.
Defined.

Lemma main_default_output_fails_witness :
  ∃ e w', main (world_of [] []) args_default_output w0 = (Raised e, w')
          ∧ files w' = files w0 ∧ dirs w' = dirs w0
          ∧ (e = UnboundLocalError "output_dir"
             ∨ e = WebDriverException sign_in_url
             ∨ e = RequestException (sitemap_url_of args_default_output))
          ∧ ((∀ now, is_Some (requests_get (world_of [] []) now
                                (sitemap_url_of args_default_output))) →
             (∀ now, is_Some (driver_get (world_of [] []) now sign_in_url)) →
             e = UnboundLocalError "output_dir").
Proof.
  apply (main_default_output_fails (world_of [] []) args_default_output w0).
  reflexivity.
Defined.

(** C4, as stated, fails: in paid mode, when the retrieval of the sitemap
    raises after the login, the run ends with that exception and the session
    is still open. *)
Lemma session_release_counterexample :
  let r := main (world_of [sitemap_url] []) args_paid w0 in
  arg_paid args_paid = true
  ∧ r.1 = Raised (RequestException sitemap_url)
  ∧ session r.2 = SessionOpen.
Proof. vm_compute. done. Qed.

Lemma session_release_witness :
  session (main (world_of [] []) args_paid w0).2 = SessionClosed.
Proof.
  pose proof (session_release (world_of [] []) args_paid w0
                (main (world_of [] []) args_paid w0).1
                (main (world_of [] []) args_paid w0).2
                eq_refl (surjective_pairing _)) as H.
  vm_compute in H. vm_compute. exact H.
Defined.


Lemma get_article_urls_and_lastmod_spec_witness :
  ∃ urls url_to_lastmod,
    get_article_urls_and_lastmod (world_of [] []) sitemap_url TIMEOUT_SECONDS w0
    = (Returned (urls, url_to_lastmod), with_clock 1 w0)
    ∧ urls = omap loc_of (Soup.find_all "url" sitemap)
    ∧ length urls = length (List.filter has_loc (Soup.find_all "url" sitemap))
    ∧ (∀ i url_tag u,
         Soup.find_all "url" sitemap !! i = Some url_tag → loc_of url_tag = Some u →
         (∀ j later, i < j → Soup.find_all "url" sitemap !! j = Some later →
                     loc_of later ≠ Some u) →
         url_to_lastmod !! u = Some (lastmod_of url_tag))
    ∧ (∀ u, is_Some (url_to_lastmod !! u) → u ∈ urls)
    ∧ (length (List.filter has_loc_child (Soup.find_all "url" sitemap))
       <= length urls)%nat.
Proof.
  apply (get_article_urls_and_lastmod_spec (world_of [] []) sitemap_url
           TIMEOUT_SECONDS w0 sitemap_url).
  reflexivity.
Defined.

(** C8, as stated, fails: the only [<url>] element of this sitemap has no
    [<loc>] child, its [<loc>] lies inside an [<image>] element, and the
    reader still returns an address for it, with the empty timestamp. *)
Lemma get_article_urls_and_lastmod_counterexample :
  let entries := Soup.find_all "url" nested_sitemap in
  let r := get_article_urls_and_lastmod (world_with_sitemap nested_sitemap)
             sitemap_url TIMEOUT_SECONDS w0 in
  length entries = 1
  ∧ List.filter has_loc_child entries = []
  ∧ ∃ url_to_lastmod,
      r.1 = Returned ([url_image], url_to_lastmod)
      ∧ url_to_lastmod !! url_image = Some "".
Proof. vm_compute. split_and!; [done..|]. eexists. split; reflexivity. Qed.


(** A timestamp with a [..] part: the planned path leaves the directory of
    the representation through [..], the directory above it exists, and the
    run returns with the files written there. *)
Example parent_directory_run :
  let lastmod := "../2024-03-05T12:00:00Z" in
  let r := main (world_with_sitemap (sitemap_of_a lastmod)) args_free w0 in
  r.1 = Returned [(url_a, lastmod)]
  ∧ make_file_path url_a lastmod (representation_dir args_free HTML) HTML
    = ["out"; "html"; ".."; "2024-03-05_a.html"]
  ∧ is_Some (files r.2 !! ["out"; "html"; ".."; "2024-03-05_a.html"])
  ∧ is_Some (files r.2 !! ["out"; "md"; ".."; "2024-03-05_a.md"]).
Proof. vm_compute. split_and!; by eauto. Qed.

(** Without the directory on the way the file cannot be opened. *)
Example missing_directory_run :
  let lastmod := "nodir/../2024-03-05T12:00:00Z" in
  (main (world_with_sitemap (sitemap_of_a lastmod)) args_free w0).1
  = Raised (OSError "out/html/nodir/../2024-03-05_a.html").
Proof. vm_compute. reflexivity. Qed.

End ConcreteRuns.

(** * Further properties of the code *)

(** ** More on the path planner *)

Module PlannerFacts.
Import PyStr PyStrFacts PathFacts.

Lemma rstrip_only c n : rstrip c (repeat_char c n) = "".
Proof.
  induction n as [|n IH]; [done|]. simpl. by rewrite IH, Ascii.eqb_refl.
Qed.

Lemma rstrip_app_repeat c s n : rstrip c (s +:+ repeat_char c n) = rstrip c s.
Proof.
  induction s as [|a s IH].
  - rewrite app_nil_l. apply rstrip_only.
  - rewrite app_cons. simpl. by rewrite IH.
Qed.

Lemma lstrip_repeat_app c n s : lstrip c (repeat_char c n +:+ s) = lstrip c s.
Proof.
  induction n as [|n IH]; [done|].
  change (repeat_char c (S n)) with (String c (repeat_char c n)).
  rewrite app_cons. cbn [lstrip]. by rewrite Ascii.eqb_refl.
Qed.

Lemma date_part_no_sep d : contains "T" d = false → date_part d = d.
Proof.
  intros Hd. unfold date_part. destruct d as [|a d]; [done|].
  cbn [truthy]. by rewrite (split_no_sep _ _ Hd).
Qed.

Lemma date_part_timestamp d t :
  contains "T" d = false → date_part (d +:+ String "T" t) = d.
Proof.
  intros Hd. unfold date_part.
  assert (truthy (d +:+ String "T" t) = true) as -> by by destruct d.
  by rewrite split_app_sep, (split_no_sep _ _ Hd).
Qed.

Lemma make_file_path_by_parts u1 l1 u2 l2 base_dir o :
  date_part l1 = date_part l2 → last_path_segment u1 = last_path_segment u2 →
  make_file_path u1 l1 base_dir o = make_file_path u2 l2 base_dir o.
Proof.
  intros Hd Hs. rewrite !make_file_path_unfold. unfold date_prefix.
  by rewrite Hd, Hs.
Qed.

End PlannerFacts.

Section PathPlannerMore.
Import PyStr PyStrFacts PathFacts PlannerFacts.

(** X1.  Trailing slashes of an address do not matter to the planner: the
    address with any number of slashes appended gets the same path. *)
Theorem make_file_path_trailing_slashes url n lastmod base_dir o :
  make_file_path (url +:+ repeat_char "/" n) lastmod base_dir o
  = make_file_path url lastmod base_dir o.
Proof.
  apply make_file_path_by_parts; [done|].
  unfold last_path_segment. by rewrite rstrip_app_repeat.
Qed.

(** X2.  Only the date of a timestamp matters to the planner: when [d] has
    no ["T"], every timestamp [d ++ "T" ++ time] gets the path of the bare
    date [d], so two timestamps of the same day get the same path. *)
Theorem make_file_path_same_day url d time time' base_dir o :
  contains "T" d = false →
  make_file_path url (d +:+ String "T" time) base_dir o
  = make_file_path url d base_dir o
  ∧ make_file_path url (d +:+ String "T" time) base_dir o
    = make_file_path url (d +:+ String "T" time') base_dir o.
Proof.
  intros Hd. split; apply make_file_path_by_parts; try done.
  - by rewrite date_part_timestamp, date_part_no_sep.
  - by rewrite !date_part_timestamp.
Qed.

(** X3.  When the date part of the timestamp has no slash, the planned file
    lies directly in the base directory, whatever the address: the path is
    the base directory followed by one part, and that part contains no
    slash. *)
Theorem make_file_path_in_base_dir url lastmod base_dir o :
  contains "/" (date_part lastmod) = false →
  ∃ name, make_file_path url lastmod base_dir o = base_dir ++ [name]
          ∧ contains "/" name = false
          ∧ name = date_prefix lastmod +:+ last_path_segment url +:+ "." +:+ value o.
Proof.
  intros Hd. eexists. split; [by apply make_file_path_flat|]. split; [|done].
  rewrite !contains_app, last_path_segment_no_slash. unfold date_prefix.
  destruct (truthy _); destruct o; by rewrite ?contains_app, ?Hd.
Qed.


End PathPlannerMore.

(** ** What a run does not depend on *)

Section RunInvariance.
Import MFacts PyStrFacts PlannerFacts.
Variable ext : Externals.

Lemma bind_ext {A B} (m : M A) (k1 k2 : A → M B) w :
  (∀ a w1, k1 a w1 = k2 a w1) → (m ≫= k1) w = (m ≫= k2) w.
Proof.
  intros Hk. rewrite !bind_run. by destruct (m w) as [[a|e] w1].
Qed.

(** The loop looks at the command line only for the mode and, in paid mode,
    for the delay. *)
Lemma scrape_loop_args args args' driver od m urls : ∀ results w,
  arg_paid args' = arg_paid args →
  (arg_paid args = true → arg_delay args' = arg_delay args) →
  scrape_loop ext args' driver od m urls results w
  = scrape_loop ext args driver od m urls results w.
Proof.
  induction urls as [|url urls IH]; intros results w Hpaid Hdelay; [done|].
  cbn [scrape_loop]. apply bind_ext. intros _ w1.
  assert ((if arg_paid args'
           then scrape_article_selenium ext driver url (arg_delay args')
           else scrape_article_requests ext url TIMEOUT_SECONDS)
          = (if arg_paid args
             then scrape_article_selenium ext driver url (arg_delay args)
             else scrape_article_requests ext url TIMEOUT_SECONDS)) as ->.
  { rewrite Hpaid. destruct (arg_paid args); [|done]. by rewrite Hdelay. }
  apply bind_ext. intros content w2. destruct (negb _).
  - apply bind_ext. intros _ w3. by apply IH.
  - apply bind_ext. intros _ w3. by apply IH.
Qed.

(** Two command lines that agree on the address of the sitemap, the output
    directory, the mode and, in paid mode, the delay give the same run. *)
Lemma main_args args args' w :
  sitemap_url_of args' = sitemap_url_of args →
  arg_output args' = arg_output args →
  arg_paid args' = arg_paid args →
  (arg_paid args = true → arg_delay args' = arg_delay args) →
  main ext args' w = main ext args w.
Proof.
  intros Hurl Hout Hpaid Hdelay. unfold main.
  fold (sitemap_url_of args') (sitemap_url_of args).
  rewrite Hurl, Hout, Hpaid.
  apply bind_ext. intros output_dir w1.
  apply bind_ext. intros driver w2.
  apply bind_ext. intros _ w3.
  apply bind_ext. intros [urls url_to_lastmod] w4.
  apply bind_ext. intros _ w5.
  apply bind_ext. intros od w6.
  apply bind_ext. intros _ w7.
  apply bind_ext. intros _ w8.
  rewrite !bind_run. rewrite (scrape_loop_args args args'); done.
Qed.

(** X5.  Slashes at the end of the newsletter address and at the start of
    the sitemap path do not matter: the sitemap is retrieved from the same
    address, which has one slash between the two, and the whole run is the
    same. *)
Theorem main_ignores_extra_slashes args n k w :
  let args' :=
    {| arg_url := arg_url args +:+ PyStr.repeat_char "/" n;
       arg_sitemap := PyStr.repeat_char "/" k +:+ arg_sitemap args;
       arg_paid := arg_paid args; arg_output := arg_output args;
       arg_delay := arg_delay args |} in
  sitemap_url_of args' = sitemap_url_of args
  ∧ main ext args' w = main ext args w
  ∧ ∃ base path,
      sitemap_url_of args = base +:+ "/" +:+ path
      ∧ PyStr.endswith "/" base = false
      ∧ PyStr.startswith "/" path = false.
Proof.
  intros args'.
  assert (sitemap_url_of args' = sitemap_url_of args) as Hurl.
  { unfold sitemap_url_of, args'. cbn [arg_url arg_sitemap].
    by rewrite rstrip_app_repeat, lstrip_repeat_app. }
  split_and!; [done|by apply main_args|].
  exists (PyStr.rstrip "/" (arg_url args)), (PyStr.lstrip "/" (arg_sitemap args)).
  split; [done|].
  destruct (rstrip_spec "/" (arg_url args)) as (? & _ & Hr).
  destruct (lstrip_spec "/" (arg_sitemap args)) as (? & _ & Hl). done.
Qed.

(** X6.  Without the paid mode the delay of the command line is never used:
    the run is the same for every delay. *)
Theorem main_free_ignores_delay args delay w :
  arg_paid args = false →
  main ext (with_delay delay args) w = main ext args w.
Proof.
  intros Hfree. apply main_args; try done.
  intros Hpaid. congruence.
Qed.

End RunInvariance.

(** ** Whole runs, step by step *)

Section WholeRuns.
Import MFacts Frame Hoare PathFacts PyStrFacts.
Variable ext : Externals.

Ltac run_steps_in H :=
  cbv [mbind M_bind mret M_ret selenium_login browser_get driver_quit
       get_article_urls_and_lastmod http_get tick print modify read_local raise] in H;
  cbn [clock stdout session files dirs fst snd
       with_clock with_stdout with_session with_files with_dirs] in H.

(** A retrieval that returns made one network interaction, got a page, and
    returns what the extractor makes of that page; in paid mode the delay
    was not negative. *)
Lemma fetch_article_returned args driver url w content w1 :
  fetch_article ext args driver url w = (Returned content, w1) →
  ∃ page, page_at ext args (clock w) url = Some page
          ∧ content = extract_article_html ext (parse_lxml ext page)
          ∧ w1 = with_clock (S (clock w)) w
          ∧ (arg_paid args = true → (0 ≤ arg_delay args)%Z).
Proof.
  unfold fetch_article, page_at. destruct (arg_paid args); intros H.
  - destruct driver as [d|]; [|done]. unfold scrape_article_selenium in H.
    run_steps_in H.
    destruct (driver_get ext (clock w) url) as [page|]; [|done].
    unfold sleep in H. destruct (arg_delay args <? 0)%Z eqn:Hd; [done|].
    injection H as <- <-. exists page. split_and!; [done..|].
    intros _. by apply Z.ltb_ge.
  - unfold scrape_article_requests in H. run_steps_in H.
    destruct (requests_get ext (clock w) url) as [page|]; [|done].
    injection H as <- <-. exists page. by split_and!.
Qed.

(** The world after a returning [write_representation]: the converted
    content is in the file at the planned path, nothing else changed; the
    path was free of a directory and its parent directory existed. *)
Lemma write_representation_world od url lastmod content o w w' :
  write_representation ext od url lastmod content o w = (Returned tt, w') →
  w' = with_files
         (<[make_file_path url lastmod (od // value o) o :=
              match o with HTML => content | MD => markdownify ext content end]>
            (files w)) w
  ∧ FS.dir_exists w (make_file_path url lastmod (od // value o) o) = false
  ∧ FS.dir_exists w (PyPath.parent (make_file_path url lastmod (od // value o) o))
    = true.
Proof.
  unfold write_representation. set (p := make_file_path _ _ _ _).
  intros (? & w1 & Hopen & Hrun)%bind_returned_inv.
  unfold FS.open_w in Hopen.
  destruct (FS.dir_exists w p) eqn:H1; [done|].
  destruct (FS.dir_exists w (PyPath.parent p)) eqn:H2; [|done].
  injection Hopen as _ <-.
  assert (convert_to ext content (PyMember o) (with_files (<[p:=""]> (files w)) w)
          = (Returned (match o with HTML => content | MD => markdownify ext content end),
             with_files (<[p:=""]> (files w)) w)) as Hconv by by destruct o.
  cbv beta in Hrun. rewrite (bind_returned _ _ _ _ _ Hconv) in Hrun.
  injection Hrun as <-. split; [|done].
  unfold with_files. simpl. rewrite lookup_insert_eq. simpl.
  by rewrite insert_insert_eq.
Qed.

(** One turn of the loop, when the loop returns. *)
Lemma scrape_loop_cons_returned args driver od m url rest results w r w' :
  scrape_loop ext args driver od m (url :: rest) results w = (Returned r, w') →
  ∃ page,
    page_at ext args (clock w) url = Some page
    ∧ (arg_paid args = true → (0 ≤ arg_delay args)%Z)
    ∧ let content := extract_article_html ext (parse_lxml ext page) in
      let w1 := with_clock (S (clock w))
                  (with_stdout (stdout w ++ ["Scraping " +:+ url]) w) in
      if PyStr.truthy content then
        ∃ w2 w3,
          write_representation ext od url (default "" (m !! url)) content HTML w1
          = (Returned tt, w2)
          ∧ write_representation ext od url (default "" (m !! url)) content MD w2
            = (Returned tt, w3)
          ∧ scrape_loop ext args driver od m rest
              (results ++ [manifest_entry m url]) w3 = (Returned r, w')
      else
        scrape_loop ext args driver od m rest results
          (with_stdout
             (stdout w1 ++ ["No content found for " +:+ url +:+ ", skipping."]) w1)
        = (Returned r, w').
Proof.
  cbn [scrape_loop]. intros (? & w0 & Hprint & Hrun)%bind_returned_inv.
  injection Hprint as _ <-. cbv beta in Hrun.
  apply bind_returned_inv in Hrun as (content & w1 & Hfetch & Hrun).
  apply (fetch_article_returned args driver url) in Hfetch
    as (page & Hpage & -> & -> & Hdelay).
  exists page. split_and!; [done..|]. cbv zeta. cbv beta in Hrun.
  destruct (PyStr.truthy _); cbn [negb] in Hrun.
  - apply bind_returned_inv in Hrun as ([] & w3 & Hwrite & Hrun).
    unfold OutputOption_members in Hwrite. cbn [for_each] in Hwrite.
    apply bind_returned_inv in Hwrite as ([] & w2 & Hhtml & Hwrite).
    apply bind_returned_inv in Hwrite as ([] & w2' & Hmd & Hwrite).
    injection Hwrite as <-. by eauto.
  - apply bind_returned_inv in Hrun as (? & w2 & Hprint & Hrun).
    injection Hprint as _ <-. done.
Qed.

(** The manifest the loop returns: the entries it started with, then the
    entries of some of the addresses, in their order. *)
Lemma scrape_loop_manifest args driver od m urls : ∀ results w r w',
  scrape_loop ext args driver od m urls results w = (Returned r, w') →
  ∃ kept, sublist kept urls ∧ r = results ++ List.map (manifest_entry m) kept.
Proof.
  induction urls as [|url urls IH]; intros results w r w' Hrun.
  - injection Hrun as <- <-. exists []. by rewrite List.app_nil_r.
  - apply scrape_loop_cons_returned in Hrun as (page & _ & _ & Hrun).
    cbv zeta in Hrun. destruct (PyStr.truthy _).
    + destruct Hrun as (w2 & w3 & _ & _ & Hrest).
      apply IH in Hrest as (kept & Hsub & ->).
      exists (url :: kept). split; [by apply sublist_skip|].
      by rewrite <- List.app_assoc.
    + apply IH in Hrun as (kept & Hsub & ->).
      exists kept. split; [by apply sublist_cons|done].
Qed.

(** The loop makes one network interaction per address, in the order of the
    list, and each of them got a page. *)
Lemma scrape_loop_clock args driver od m urls : ∀ results w r w',
  scrape_loop ext args driver od m urls results w = (Returned r, w') →
  clock w' = clock w + length urls
  ∧ ∀ i u, urls !! i = Some u → is_Some (page_at ext args (clock w + i) u).
Proof.
  induction urls as [|url urls IH]; intros results w r w' Hrun.
  - injection Hrun as <- <-. split; [simpl; lia|]. by intros i u ?.
  - apply scrape_loop_cons_returned in Hrun as (page & Hpage & _ & Hrun).
    cbv zeta in Hrun.
    assert (∃ res w3, scrape_loop ext args driver od m urls res w3 = (Returned r, w')
                      ∧ clock w3 = S (clock w)) as (res & w3 & Hrest & Hclock).
    { destruct (PyStr.truthy _).
      - destruct Hrun as (w2 & w3 & Hhtml & Hmd & Hrest).
        apply write_representation_world in Hhtml as [-> _].
        apply write_representation_world in Hmd as [-> _]. by eauto.
      - by eauto. }
    apply IH in Hrest as [Hc Hpages]. rewrite Hclock in Hc, Hpages.
    split; [simpl; lia|].
    intros [|i] u Hu; simpl in Hu.
    + injection Hu as <-. rewrite Nat.add_0_r. by eauto.
    + replace (clock w + S i) with (S (clock w) + i) by lia. by apply Hpages.
Qed.

(** The extractor never gives the empty text when no tag serialises to the
    empty text. *)
Lemma extract_article_html_truthy soup :
  (∀ tag, tag_str ext tag ≠ "") →
  PyStr.truthy (extract_article_html ext soup) = true.
Proof.
  intros Hstr. unfold extract_article_html, str_optional_tag.
  destruct (Soup.find_class _ _ _) as [tag|]; [|done].
  specialize (Hstr tag). by destruct (tag_str ext tag).
Qed.

Lemma scrape_loop_no_skip args driver od m urls :
  (∀ tag, tag_str ext tag ≠ "") →
  ∀ results w r w',
    scrape_loop ext args driver od m urls results w = (Returned r, w') →
    r = results ++ List.map (manifest_entry m) urls.
Proof.
  intros Hstr. induction urls as [|url urls IH]; intros results w r w' Hrun.
  - injection Hrun as <- <-. by rewrite List.app_nil_r.
  - apply scrape_loop_cons_returned in Hrun as (page & _ & _ & Hrun).
    cbv zeta in Hrun. rewrite (extract_article_html_truthy _ Hstr) in Hrun.
    destruct Hrun as (w2 & w3 & _ & _ & Hrest).
    apply IH in Hrest as ->. by rewrite <- List.app_assoc.
Qed.

(** The files after the loop: those that were there, and the planned files
    of entries of the manifest. *)
Lemma scrape_loop_new_files args driver od m urls : ∀ results w r w' p,
  scrape_loop ext args driver od m urls results w = (Returned r, w') →
  is_Some (files w' !! p) →
  is_Some (files w !! p)
  ∨ ∃ u l o, (u, l) ∈ r ∧ p = make_file_path u l (od // value o) o.
Proof.
  induction urls as [|url urls IH]; intros results w r w' p Hrun Hp.
  - injection Hrun as <- <-. by left.
  - apply scrape_loop_cons_returned in Hrun as (page & _ & _ & Hrun).
    cbv zeta in Hrun. destruct (PyStr.truthy _).
    + destruct Hrun as (w2 & w3 & Hhtml & Hmd & Hrest).
      destruct (IH _ _ _ _ p Hrest Hp) as [Hp3|?]; [|by right].
      apply scrape_loop_manifest in Hrest as (kept & _ & ->).
      assert ((url, default "" (m !! url))
                ∈ (results ++ [manifest_entry m url])
                   ++ List.map (manifest_entry m) kept) as Hin.
      { apply elem_of_app. left. apply elem_of_app. right.
        apply list_elem_of_singleton. done. }
      apply write_representation_world in Hhtml as [-> _].
      apply write_representation_world in Hmd as [-> _].
      simpl in Hp3.
      destruct (decide (make_file_path url (default "" (m !! url))
                          (od // value MD) MD = p)) as [<-|Hne1];
        [right; by eauto|].
      rewrite lookup_insert_ne in Hp3 by done.
      destruct (decide (make_file_path url (default "" (m !! url))
                          (od // value HTML) HTML = p)) as [<-|Hne2];
        [right; by eauto|].
      rewrite lookup_insert_ne in Hp3 by done. by left.
    + destruct (IH _ _ _ _ p Hrun Hp) as [Hp3|?]; [by left|by right].
Qed.

Ltac inv_bind H a w1 H1 :=
  apply bind_returned_inv in H as (a & w1 & H1 & H); cbv beta in H.

(** The steps of a run of [main] that returns. *)
Lemma main_returned_inv args w results w' :
  main ext args w = (Returned results, w') →
  ∃ w1 driver w2 content urls m wa w3 w4 w5,
    (arg_output args =? ".")%string = false
    ∧ FS.mkdir_parents (PyPath.of_string (arg_output args)) w = (Returned tt, w1)
    ∧ (files w2 = files w1 ∧ dirs w2 = dirs w1
       ∧ clock w2 = clock w1 + (if arg_paid args then 1 else 0)
       ∧ session w2 = if arg_paid args then SessionOpen else session w1)
    ∧ requests_get ext (clock w2) (sitemap_url_of args) = Some content
    ∧ read_sitemap (parse_xml ext content) = (urls, m)
    ∧ (files wa = files w2 ∧ dirs wa = dirs w2 ∧ clock wa = S (clock w2)
       ∧ session wa = session w2)
    ∧ store_sitemap (PyPath.of_string (arg_output args) // "urls.txt") urls wa
      = (Returned tt, w3)
    ∧ for_each OutputOption_members
        (λ o, FS.rmtree_ignore_errors (PyPath.of_string (arg_output args) // value o) ;;
              FS.mkdir_parents (PyPath.of_string (arg_output args) // value o)) w3
      = (Returned tt, w4)
    ∧ scrape_loop ext args driver (PyPath.of_string (arg_output args)) m urls [] w4
      = (Returned results, w5)
    ∧ FS.dir_exists w5 (PyPath.of_string (arg_output args) // "summary.json") = false
    ∧ (files w' = <[PyPath.of_string (arg_output args) // "summary.json"
                    := json_dumps ext results]> (files w5)
       ∧ dirs w' = dirs w5 ∧ clock w' = clock w5
       ∧ session w' = if arg_paid args then SessionClosed else session w5).
Proof.
  intros Hm. unfold main in Hm. fold (sitemap_url_of args) in Hm.
  set (X := PyPath.of_string (arg_output args)) in *.
  inv_bind Hm output_dir w1 Hout.
  inv_bind Hm driver w2 Hlogin.
  inv_bind Hm u1 w2a Hprint1. injection Hprint1 as _ <-.
  inv_bind Hm r w2b Hget.
  run_steps_in Hget.
  destruct (requests_get ext (clock w2) (sitemap_url_of args)) as [content|] eqn:Hreq;
    [|done].
  injection Hget as <- <-.
  destruct (read_sitemap (parse_xml ext content)) as [urls m] eqn:Hrs.
  inv_bind Hm u2 w2c Hprint2. injection Hprint2 as _ <-.
  inv_bind Hm od w2d Hread.
  destruct (arg_output args =? ".")%string eqn:Hdot; cbn [negb] in Hout.
  { injection Hout as <- <-. done. }
  inv_bind Hout u3 w1' Hmkdir. injection Hout as <- <-.
  injection Hread as <- <-.
  inv_bind Hm u4 w3 Hstore.
  inv_bind Hm u5 w4 Hdirs.
  inv_bind Hm res w5 Hloop.
  inv_bind Hm u6 w6 Hopen.
  unfold FS.open_w in Hopen.
  destruct (FS.dir_exists w5 (X // "summary.json")) eqn:Hsp; [done|].
  destruct (negb _); [done|]. injection Hopen as _ <-.
  assert (files w2 = files w1' ∧ dirs w2 = dirs w1'
          ∧ clock w2 = clock w1' + (if arg_paid args then 1 else 0)
          ∧ session w2 = (if arg_paid args then SessionOpen else session w1')
          ∧ driver = if arg_paid args then Some ChromeDriver else None) as Hl.
  { destruct (arg_paid args); run_steps_in Hlogin.
    - destruct (driver_get ext (clock w1') _); [|done].
      injection Hlogin as <- <-. simpl. split_and!; [done|done|lia|done|done].
    - injection Hlogin as <- <-. simpl. split_and!; [done|done|lia|done|done]. }
  destruct Hl as (Hl1 & Hl2 & Hl3 & Hl4 & ->).
  destruct u3, u4, u5.
  unfold FS.write in Hm. run_steps_in Hm.
  rewrite lookup_insert_eq, insert_insert_eq in Hm.
  change (default "" (Some "") +:+ json_dumps ext res) with (json_dumps ext res) in Hm.
  eexists w1', (if arg_paid args then Some ChromeDriver else None),
    w2, content, urls, m, _, w3, w4, w5.
  split_and!; [done|exact Hmkdir|done|done|done|done|exact Hreq|exact Hrs| | | | |
               exact Hstore|exact Hdirs| |exact Hsp| | | |].
  all: try (simpl; done).
  all: destruct (arg_paid args); cbv beta iota in Hm; injection Hm as <- <-;
    done.
Qed.

End WholeRuns.

(** ** The sitemap reader's mapping *)

Section SitemapMapping.

Lemma fold_sitemap_covers tags u : ∀ urls m,
  u ∈ omap loc_of tags ∨ is_Some (m !! u) →
  is_Some ((fold_left sitemap_step tags (urls, m)).2 !! u).
Proof.
  induction tags as [|t tags IH]; intros urls m Hu; cbn [fold_left].
  - destruct Hu as [Hu|Hu]; [by apply elem_of_nil in Hu|done].
  - rewrite sitemap_step_spec.
    change (omap loc_of (t :: tags)) with
      (match loc_of t with
       | Some u' => u' :: omap loc_of tags
       | None => omap loc_of tags
       end) in Hu.
    destruct (loc_of t) as [u'|]; [|by apply IH].
    apply IH. destruct Hu as [[->|Hu]%elem_of_cons|Hu].
    + right. by rewrite lookup_insert_eq.
    + by left.
    + right. destruct (decide (u' = u)) as [->|Hne].
      * by rewrite lookup_insert_eq.
      * by rewrite lookup_insert_ne.
Qed.

(** X7.  The keys of the mapping the reader returns are exactly the
    addresses of the list it returns: every address of the list has a
    [lastmod] entry (possibly the empty text), and nothing else has. *)
Theorem read_sitemap_keys soup :
  dom (read_sitemap soup).2 = list_to_set (read_sitemap soup).1.
Proof.
  apply set_eq. intros u. rewrite elem_of_dom, elem_of_list_to_set.
  unfold read_sitemap. rewrite fold_sitemap_urls. simpl. split.
  - intros Hu. destruct (decide (u ∈ omap loc_of (Soup.find_all "url" soup)))
      as [|Hn]; [done|].
    rewrite (fold_sitemap_other _ _ _ _ Hn), lookup_empty in Hu. by destruct Hu.
  - intros Hu. apply fold_sitemap_covers. by left.
Qed.

End SitemapMapping.

(** ** Properties of whole runs *)

Section RunProperties.
Import MFacts Frame Hoare PathFacts.
Variable ext : Externals.

(** X8.  When [main] returns, [summary.json] holds the serialisation of the
    manifest, and the manifest consists of entries of addresses of the
    sitemap that was retrieved, in the order of the sitemap, each with the
    [lastmod] the mapping of the sitemap has for it. *)
Theorem main_manifest args w results w' :
  main ext args w = (Returned results, w') →
  files w' !! summary_path_of args = Some (json_dumps ext results)
  ∧ ∃ now content kept,
      requests_get ext now (sitemap_url_of args) = Some content
      ∧ sublist kept (read_sitemap (parse_xml ext content)).1
      ∧ results
        = List.map (manifest_entry (read_sitemap (parse_xml ext content)).2) kept
      ∧ ∀ u l, (u, l) ∈ results →
               (read_sitemap (parse_xml ext content)).2 !! u = Some l.
Proof.
  intros (w1 & driver & w2 & content & urls & m & wa & w3 & w4 & w5 & _ & _ & _
          & Hreq & Hrs & _ & _ & _ & Hloop & _ & (Hfiles & _))%main_returned_inv.
  split.
  { unfold summary_path_of. rewrite Hfiles. apply lookup_insert_eq. }
  apply scrape_loop_manifest in Hloop as (kept & Hsub & ->).
  exists (clock w2), content, kept. rewrite Hrs. simpl.
  split_and!; [done..|].
  intros u l (u' & Heq & Hin)%list_elem_of_In%in_map_iff.
  injection Heq as <- <-. apply list_elem_of_In in Hin.
  assert (is_Some (m !! u')) as [l Hl].
  { pose proof (fold_sitemap_covers (Soup.find_all "url" (parse_xml ext content))
                  u' [] ∅) as Hk.
    pose proof (fold_sitemap_urls (Soup.find_all "url" (parse_xml ext content))
                  [] ∅) as Hu.
    fold (read_sitemap (parse_xml ext content)) in Hk, Hu.
    rewrite Hrs in Hk, Hu. simpl in Hk, Hu. apply Hk. left. rewrite <- Hu.
    by eapply elem_of_sublist. }
  by rewrite Hl.
Qed.

(** X9.  The skip of the loop is never taken when no tag serialises to the
    empty text (as is the case for the tags of a parsed page): when [main]
    returns, the manifest has one entry for every address of the sitemap, in
    order. *)
Theorem main_manifest_complete args w results w' :
  (∀ tag, tag_str ext tag ≠ "") →
  main ext args w = (Returned results, w') →
  ∃ now content,
    requests_get ext now (sitemap_url_of args) = Some content
    ∧ results
      = List.map (manifest_entry (read_sitemap (parse_xml ext content)).2)
          (read_sitemap (parse_xml ext content)).1.
Proof.
  intros Hstr (w1 & driver & w2 & content & urls & m & wa & w3 & w4 & w5 & _ & _ & _
          & Hreq & Hrs & _ & _ & _ & Hloop & _)%main_returned_inv.
  apply (scrape_loop_no_skip ext args driver _ m urls Hstr) in Hloop as ->.
  exists (clock w2), content. rewrite Hrs. by split.
Qed.

(** X10.  In paid mode a negative delay makes every retrieval of an article
    raise: [main] can only return when the sitemap lists no address, with an
    empty manifest. *)
Theorem main_negative_delay args w results w' :
  arg_paid args = true → (arg_delay args < 0)%Z →
  main ext args w = (Returned results, w') →
  results = []
  ∧ ∃ now content,
      requests_get ext now (sitemap_url_of args) = Some content
      ∧ (read_sitemap (parse_xml ext content)).1 = [].
Proof.
  intros Hpaid Hdelay
    (w1 & driver & w2 & content & urls & m & wa & w3 & w4 & w5 & _ & _ & _
     & Hreq & Hrs & _ & _ & _ & Hloop & _)%main_returned_inv.
  destruct urls as [|url urls].
  - injection Hloop as <- _. split; [done|].
    exists (clock w2), content. by rewrite Hrs.
  - apply scrape_loop_cons_returned in Hloop as (page & _ & Hd & _).
    specialize (Hd Hpaid). lia.
Qed.

#[local] Instance same_clock_preorder : PreOrder same_clock.
Proof.
  split; unfold same_clock.
  - by intros w.
  - intros w1 w2 w3 H1 H2. by rewrite H2.
Qed.

#[local] Instance same_dirs_quiet : Quiet same_dirs.
Proof.
  split; [split|..]; unfold same_dirs.
  - by intros w.
  - intros w1 w2 w3 H1 H2. by rewrite H2.
  - done.
  - done.
Qed.

Lemma clock_print line : respects same_clock (print line).
Proof. by intros w. Qed.

Lemma clock_mkdir_parents p : respects same_clock (FS.mkdir_parents p).
Proof. intros w. unfold FS.mkdir_parents. by destruct (existsb _ _). Qed.

Lemma clock_rmtree p : respects same_clock (FS.rmtree_ignore_errors p).
Proof. intros w. unfold FS.rmtree_ignore_errors. by case_bool_decide. Qed.

Lemma clock_open_w p : respects same_clock (FS.open_w p).
Proof. intros w. unfold FS.open_w. by destruct (_ || _). Qed.

Lemma clock_write p s : respects same_clock (FS.write p s).
Proof. by intros w. Qed.

Lemma clock_store_sitemap path urls : respects same_clock (store_sitemap path urls).
Proof.
  unfold store_sitemap.
  apply (respects_bind same_clock); [apply clock_open_w|intros _].
  apply (respects_bind same_clock); [|intros _; apply clock_print].
  apply (respects_for_each same_clock). intros u. apply clock_write.
Qed.

Lemma clock_clean_directories od :
  respects same_clock
    (for_each OutputOption_members
       (λ o, FS.rmtree_ignore_errors (od // value o) ;;
             FS.mkdir_parents (od // value o))).
Proof.
  apply (respects_for_each same_clock). intros o.
  apply (respects_bind same_clock);
    [apply clock_rmtree|intros _; apply clock_mkdir_parents].
Qed.

(** What [respects] says of one run. *)
Lemma respects_run {A} (R : relation World) (m : M A) w r w' :
  respects R m → m w = (r, w') → R w w'.
Proof. intros H Hm. specialize (H w). by rewrite Hm in H. Qed.

(** X11.  A run that returns made exactly one network interaction for the
    sitemap and one for every address of the sitemap, after the one of the
    login in paid mode, in that order: nothing is retrieved twice. *)
Theorem main_request_count args w results w' :
  main ext args w = (Returned results, w') →
  let first := clock w + (if arg_paid args then 1 else 0) in
  ∃ content,
    requests_get ext first (sitemap_url_of args) = Some content
    ∧ clock w' = first + 1 + length (read_sitemap (parse_xml ext content)).1
    ∧ ∀ i u, (read_sitemap (parse_xml ext content)).1 !! i = Some u →
             is_Some (page_at ext args (first + 1 + i) u).
Proof.
  intros (w1 & driver & w2 & content & urls & m & wa & w3 & w4 & w5 & _ & Hmkdir
          & (_ & _ & Hc2 & _) & Hreq & Hrs & (_ & _ & Hca & _) & Hstore & Hclean
          & Hloop & _ & (_ & _ & Hc' & _))%main_returned_inv first.
  apply (respects_run same_clock _ _ _ _ (clock_mkdir_parents _)) in Hmkdir.
  apply (respects_run same_clock _ _ _ _ (clock_store_sitemap _ _)) in Hstore.
  apply (respects_run same_clock _ _ _ _ (clock_clean_directories _)) in Hclean.
  apply scrape_loop_clock in Hloop as [Hc5 Hpages].
  unfold same_clock in *.
  assert (clock w2 = first) as Hfirst by (unfold first; lia).
  assert (clock w4 = first + 1) as H4 by lia.
  exists content. rewrite Hrs. simpl. rewrite <- Hfirst at 1.
  split_and!; [done|lia|].
  intros i u Hu. rewrite <- H4. by apply Hpages.
Qed.

Lemma session_keep_step {A} s (m : M A) :
  respects same_session m →
  hoare (λ w, session w = s) m (λ _ w, session w = s) (λ _ w, session w = s).
Proof.
  apply (hoare_stable same_session). intros w1 w2 H1 H2. by rewrite H2.
Qed.

(** X12.  Without the paid mode no run touches the browser session: it is
    after the run, returned or raised, what it was before. *)
Theorem main_free_keeps_session args w :
  arg_paid args = false →
  session (main ext args w).2 = session w.
Proof.
  intros Hfree.
  assert (hoare (λ w0, session w0 = session w) (main ext args)
            (λ _ w1, session w1 = session w) (λ _ w1, session w1 = session w)) as H.
  { unfold main. rewrite Hfree.
    eapply hoare_bind; [apply session_keep_step|intros output_dir].
    { destruct (negb _); [|apply (respects_ret same_session)].
      apply (respects_bind same_session);
        [apply session_mkdir_parents|intros _; apply (respects_ret same_session)]. }
    eapply hoare_bind with (Q1 := λ driver w1, driver = None ∧ session w1 = session w).
    { intros w0 Hw0. by simpl. }
    intros driver. apply hoare_pure. intros ->.
    eapply hoare_bind; [apply session_keep_step, respects_print, _|intros ?].
    eapply hoare_bind;
      [apply session_keep_step, respects_get_article_urls_and_lastmod, _
      |intros [urls url_to_lastmod]].
    eapply hoare_bind; [apply session_keep_step, respects_print, _|intros ?].
    eapply hoare_bind;
      [apply session_keep_step, (respects_read_local same_session)|intros od].
    eapply hoare_bind; [apply session_keep_step|intros ?].
    { apply respects_store_sitemap; [apply _|..]; intros;
        [apply session_open_w|apply session_write]. }
    eapply hoare_bind; [apply session_keep_step|intros ?].
    { apply (respects_for_each same_session). intros o.
      apply (respects_bind same_session);
        [apply session_rmtree|intros _; apply session_mkdir_parents]. }
    eapply hoare_bind;
      [apply session_keep_step, session_scrape_loop|intros results].
    eapply hoare_bind; [apply session_keep_step, session_open_w|intros ?].
    eapply hoare_bind; [apply session_keep_step, session_write|intros ?].
    eapply hoare_bind; [apply session_keep_step, respects_print, _|intros ?].
    intros w0 Hw0. exact Hw0. }
  specialize (H w eq_refl). by destruct (main ext args w) as [[r|e] w1].
Qed.

(** X13.  When the sitemap cannot be retrieved the run ends with an
    exception before anything is written or removed: the files are as they
    were, no directory disappeared, and the only directories that may have
    been created are the output directory and its ancestors. *)
Theorem main_sitemap_failure args w :
  (∀ now, requests_get ext now (sitemap_url_of args) = None) →
  ∃ e w', main ext args w = (Raised e, w')
          ∧ files w' = files w
          ∧ dirs w ⊆ dirs w'
          ∧ dirs w' ⊆ dirs w
              ∪ list_to_set (FS.ancestors_and_self (PyPath.of_string (arg_output args))).
Proof.
  intros Hfail. unfold main. fold (sitemap_url_of args).
  destruct (negb _); destruct (arg_paid args);
    cbv [mbind M_bind mret M_ret selenium_login browser_get
         get_article_urls_and_lastmod http_get tick print modify raise
         FS.mkdir_parents];
    cbn [clock stdout session files dirs fst snd
         with_clock with_stdout with_session with_files with_dirs];
    repeat match goal with
           | |- context [existsb ?f ?l] => destruct (existsb f l)
           | |- context [driver_get ext ?n ?u] => destruct (driver_get ext n u)
           end;
    rewrite ?Hfail; eexists _, _;
    (split_and!; [reflexivity|done|set_solver|set_solver]).
Qed.

Lemma ancestors_and_self_self p : p ≠ [] → p ∈ FS.ancestors_and_self p.
Proof.
  intros Hp. unfold FS.ancestors_and_self.
  apply list_elem_of_In, in_map_iff. exists (length p). split.
  - by apply take_ge.
  - apply in_seq. destruct p; [done|]. simpl. lia.
Qed.

(** A returning [mkdir] leaves the files alone, removes no directory, and
    found no regular file at its path. *)
Lemma mkdir_parents_returned p w w' :
  FS.mkdir_parents p w = (Returned tt, w') →
  files w' = files w ∧ dirs w ⊆ dirs w' ∧ (p ≠ [] → files w !! p = None).
Proof.
  unfold FS.mkdir_parents. destruct (existsb _ _) eqn:He; [done|].
  intros [= <-]. simpl. split_and!; [done|set_solver|].
  intros Hp. destruct (FS.is_file w p) eqn:Hf.
  - assert (existsb (FS.is_file w) (FS.ancestors_and_self p) = true) as Ht.
    { apply existsb_exists. exists p. split; [|done].
      by apply list_elem_of_In, ancestors_and_self_self. }
    congruence.
  - unfold FS.is_file in Hf. apply bool_decide_eq_false in Hf.
    destruct (files w !! p); [|done]. destruct Hf. by eauto.
Qed.

(** Clearing and recreating a directory: afterwards there is no file at or
    below it, no file was added, and the directories elsewhere are still
    there. *)
Lemma clean_directory d w wa wb :
  d ≠ [] →
  FS.rmtree_ignore_errors d w = (Returned tt, wa) →
  FS.mkdir_parents d wa = (Returned tt, wb) →
  (∀ p, d `prefix_of` p → p ≠ d → is_Some (files w !! p) → d ∈ dirs w) →
  (∀ p, d `prefix_of` p → files wb !! p = None)
  ∧ (∀ p, is_Some (files wb !! p) → is_Some (files w !! p))
  ∧ (∀ q, q ∈ dirs w → ¬ d `prefix_of` q → q ∈ dirs wb).
Proof.
  intros Hd Hrm Hmk Hcons.
  apply mkdir_parents_returned in Hmk as (Hf & Hdirs & Hself).
  specialize (Hself Hd). unfold FS.rmtree_ignore_errors in Hrm.
  case_bool_decide as Hin; injection Hrm as <-; simpl in *.
  - split_and!.
    + intros p Hp. rewrite Hf. apply map_lookup_filter_None. right.
      intros x _ Hnot. by apply Hnot.
    + intros p [x Hx]. rewrite Hf in Hx.
      apply map_lookup_filter_Some in Hx as [Hx _]. by eauto.
    + intros q Hq Hnot. apply Hdirs. by apply elem_of_filter.
  - split_and!.
    + intros p Hp. rewrite Hf. destruct (decide (p = d)) as [->|Hne]; [done|].
      destruct (files w !! p) eqn:Hl; [|done].
      destruct Hin. apply (Hcons p); by eauto.
    + intros p Hp. by rewrite <- Hf.
    + intros q Hq _. by apply Hdirs.
Qed.

Lemma dirs_open_w p : respects same_dirs (FS.open_w p).
Proof. intros w. unfold FS.open_w. by destruct (_ || _). Qed.

Lemma dirs_write p s : respects same_dirs (FS.write p s).
Proof. by intros w. Qed.

Lemma representation_dir_parts args o :
  representation_dir args o = PyPath.of_string (arg_output args) ++ [value o].
Proof. by destruct o. Qed.

(** X14.  The directories of the two representations are emptied before the
    loop: when [main] returns, started in a world where the files below
    those directories lie in existing directories, every file at or below
    the directory of a representation is the planned file of an entry of
    the manifest.  Files of earlier runs are gone. *)
Theorem main_cleans_representation_dirs args w results w' :
  representation_dirs_consistent args w →
  main ext args w = (Returned results, w') →
  ∀ o p,
    representation_dir args o `prefix_of` p → is_Some (files w' !! p) →
    ∃ u l o', (u, l) ∈ results
              ∧ p = make_file_path u l (representation_dir args o') o'.
Proof.
  intros Hcons
    (w1 & driver & w2 & content & urls & m & wa & w3 & w4 & w5 & _ & Hmkdir
     & (Hf2 & Hd2 & _) & _ & _ & (Hfa & Hda & _) & Hstore & Hclean
     & Hloop & _ & (Hf' & _))%main_returned_inv o p Hprefix Hp.
  set (X := PyPath.of_string (arg_output args)) in *.
  apply mkdir_parents_returned in Hmkdir as (Hf1 & Hd1 & _).
  (* the list of addresses is written outside the two directories *)
  assert (∀ o q, (X ++ [value o]) `prefix_of` q → q ≠ X // "urls.txt"
                 ∧ q ≠ X // "summary.json") as Houtside.
  { intros o0 q [k ->]. rewrite <- List.app_assoc.
    change (X // "urls.txt") with (X ++ ["urls.txt"]).
    change (X // "summary.json") with (X ++ ["summary.json"]).
    split; intros Heq%app_inv_head; by destruct o0. }
  assert (∀ o q, (X ++ [value o]) `prefix_of` q →
                 files w3 !! q = files w !! q) as Hf3.
  { intros o0 q Hq. destruct (Houtside o0 q Hq) as [Hne _].
    assert (respects (keeps q) (store_sitemap (X // "urls.txt") urls)) as Hk.
    { apply respects_store_sitemap; [apply _|..]; intros;
        [by apply keeps_open_w|by apply keeps_write]. }
    apply (respects_run _ _ _ _ _ Hk) in Hstore. unfold keeps in Hstore.
    by rewrite Hstore, Hfa, Hf2, Hf1. }
  assert (dirs w ⊆ dirs w3) as Hd3.
  { assert (respects same_dirs (store_sitemap (X // "urls.txt") urls)) as Hk.
    { apply respects_store_sitemap; [apply _|..]; intros;
        [apply dirs_open_w|apply dirs_write]. }
    apply (respects_run _ _ _ _ _ Hk) in Hstore. unfold same_dirs in Hstore.
    rewrite Hstore, Hda, Hd2. exact Hd1. }
  (* the two directories are emptied *)
  unfold OutputOption_members in Hclean. cbn [for_each] in Hclean.
  apply bind_returned_inv in Hclean as ([] & wb & Hhtml & Hclean).
  apply bind_returned_inv in Hhtml as ([] & wa' & Hrm1 & Hmk1).
  apply bind_returned_inv in Hclean as ([] & wd & Hmd & Hclean).
  apply bind_returned_inv in Hmd as ([] & wc & Hrm2 & Hmk2).
  injection Hclean as <-. cbv beta in *.
  change (X // value HTML) with (X ++ [value HTML]) in *.
  change (X // value MD) with (X ++ [value MD]) in *.
  assert (∀ o0 q, (X ++ [value o0]) `prefix_of` q → q ≠ X ++ [value o0] →
                  is_Some (files w3 !! q) → X ++ [value o0] ∈ dirs w3) as Hcons3.
  { intros o0 q Hq Hne Hs. apply Hd3. rewrite (Hf3 o0 q Hq) in Hs.
    pose proof (Hcons o0 q) as Hc. rewrite representation_dir_parts in Hc.
    by apply Hc. }
  assert (∀ o0, X ++ [value o0] ≠ []) as Hnonempty.
  { intros o0 [_ ?]%app_eq_nil. done. }
  destruct (clean_directory _ _ _ _ (Hnonempty HTML) Hrm1 Hmk1 (Hcons3 HTML))
    as (Hnone1 & Hsub1 & Hkeep1).
  assert (∀ q, (X ++ [value MD]) `prefix_of` q → q ≠ X ++ [value MD] →
               is_Some (files wb !! q) → X ++ [value MD] ∈ dirs wb) as Hconsb.
  { intros q Hq Hne Hs. apply Hkeep1.
    - apply (Hcons3 MD q); [done..|]. by apply Hsub1.
    - intros [k Hk]. rewrite <- List.app_assoc in Hk.
      by apply app_inv_head in Hk. }
  destruct (clean_directory _ _ _ _ (Hnonempty MD) Hrm2 Hmk2 Hconsb)
    as (Hnone2 & Hsub2 & _).
  assert (files wd !! p = None) as Hempty.
  { rewrite representation_dir_parts in Hprefix. fold X in Hprefix.
    destruct o.
    - destruct (files wd !! p) eqn:Hl; [|done].
      assert (is_Some (files wb !! p)) as Hb by (apply Hsub2; by eauto).
      rewrite (Hnone1 p Hprefix) in Hb. by destruct Hb.
    - by apply Hnone2. }
  (* the loop adds planned files only, and the manifest is written outside *)
  rewrite Hf' in Hp.
  rewrite representation_dir_parts in Hprefix. fold X in Hprefix.
  destruct (Houtside o p Hprefix) as [_ Hne].
  rewrite lookup_insert_ne in Hp by done.
  destruct (scrape_loop_new_files ext _ _ _ _ _ _ _ _ _ p Hloop Hp)
    as [Hold|(u & l & o' & Hin & ->)].
  - rewrite Hempty in Hold. by destruct Hold.
  - exists u, l, o'. split; [done|]. reflexivity.
Qed.

End RunProperties.

(** ** Further runs in the concrete world *)

Section MoreConcreteRuns.
Import Demo DemoMore.

Lemma make_file_path_same_day_witness :
  make_file_path url_a "2024-03-05T12:00:00Z" ["out"; "html"] HTML
  = make_file_path url_a "2024-03-05" ["out"; "html"] HTML
  ∧ make_file_path url_a "2024-03-05T12:00:00Z" ["out"; "html"] HTML
    = make_file_path url_a "2024-03-05T23:59:59Z" ["out"; "html"] HTML.
Proof.
  apply (make_file_path_same_day url_a "2024-03-05" "12:00:00Z" "23:59:59Z").
  reflexivity.
Defined.

Lemma make_file_path_in_base_dir_witness :
  ∃ name,
    make_file_path "https://e.substack.com/p/.." "2024-03-05T12:00:00Z"
      ["out"; "html"] HTML = ["out"; "html"] ++ [name]
    ∧ PyStr.contains "/" name = false
    ∧ name = date_prefix "2024-03-05T12:00:00Z"
             +:+ last_path_segment "https://e.substack.com/p/.." +:+ "." +:+ value HTML.
Proof.
  apply (make_file_path_in_base_dir "https://e.substack.com/p/.."
           "2024-03-05T12:00:00Z" ["out"; "html"] HTML).
  reflexivity.
Defined.


Lemma main_free_ignores_delay_witness :
  main (world_of [] []) (with_delay 5000 args_free) w0
  = main (world_of [] []) args_free w0.
Proof.
  apply (main_free_ignores_delay (world_of [] []) args_free 5000 w0).
  reflexivity.
Defined.

Lemma main_manifest_witness :
  let w' := (main (world_of [] []) args_free w0).2 in
  files w' !! summary_path_of args_free
  = Some (json_dumps (world_of [] []) manifest_abc)
  ∧ ∃ now content kept,
      requests_get (world_of [] []) now (sitemap_url_of args_free) = Some content
      ∧ sublist kept (read_sitemap (parse_xml (world_of [] []) content)).1
      ∧ manifest_abc
        = List.map (manifest_entry
                      (read_sitemap (parse_xml (world_of [] []) content)).2) kept
      ∧ ∀ u l, (u, l) ∈ manifest_abc →
               (read_sitemap (parse_xml (world_of [] []) content)).2 !! u = Some l.
Proof.
  apply (main_manifest (world_of [] []) args_free w0 manifest_abc).
  vm_compute. reflexivity.
Defined.

Lemma main_manifest_complete_witness :
  ∃ now content,
    requests_get (world_of [] []) now (sitemap_url_of args_free) = Some content
    ∧ manifest_abc
      = List.map (manifest_entry
                    (read_sitemap (parse_xml (world_of [] []) content)).2)
          (read_sitemap (parse_xml (world_of [] []) content)).1.
Proof.
  apply (main_manifest_complete (world_of [] []) args_free w0 manifest_abc
           (main (world_of [] []) args_free w0).2).
  - intros tag. discriminate.
  - vm_compute. reflexivity.
Defined.

Lemma main_negative_delay_witness :
  @nil (string * string) = []
  ∧ ∃ now content,
      requests_get world_without_articles now
        (sitemap_url_of args_paid_negative_delay) = Some content
      ∧ (read_sitemap (parse_xml world_without_articles content)).1 = [].
Proof.
  apply (main_negative_delay world_without_articles args_paid_negative_delay w0 []
           (main world_without_articles args_paid_negative_delay w0).2).
  - reflexivity.
  - reflexivity.
  - vm_compute. reflexivity.
Defined.

Lemma main_request_count_witness :
  let first := clock w0 + (if arg_paid args_paid then 1 else 0) in
  ∃ content,
    requests_get (world_of [] []) first (sitemap_url_of args_paid) = Some content
    ∧ clock (main (world_of [] []) args_paid w0).2
      = first + 1 + length (read_sitemap (parse_xml (world_of [] []) content)).1
    ∧ ∀ i u, (read_sitemap (parse_xml (world_of [] []) content)).1 !! i = Some u →
             is_Some (page_at (world_of [] []) args_paid (first + 1 + i) u).
Proof.
  apply (main_request_count (world_of [] []) args_paid w0 manifest_abc).
  vm_compute. reflexivity.
Defined.

Lemma main_free_keeps_session_witness :
  session (main (world_of [url_b] []) args_free w0).2 = session w0.
Proof.
  apply (main_free_keeps_session (world_of [url_b] []) args_free w0).
  reflexivity.
Defined.

Lemma main_sitemap_failure_witness :
  ∃ e w', main (world_of [sitemap_url] []) args_paid w0 = (Raised e, w')
          ∧ files w' = files w0
          ∧ dirs w0 ⊆ dirs w'
          ∧ dirs w' ⊆ dirs w0
              ∪ list_to_set (FS.ancestors_and_self
                               (PyPath.of_string (arg_output args_paid))).
Proof.
  apply (main_sitemap_failure (world_of [sitemap_url] []) args_paid w0).
  intros now. reflexivity.
Defined.

Lemma main_cleans_representation_dirs_witness :
  ∃ u l o', (u, l) ∈ manifest_abc
            ∧ ["out"; "html"; "c.html"]
              = make_file_path u l (representation_dir args_free o') o'.
Proof.
  apply (main_cleans_representation_dirs (world_of [] []) args_free w_stale
           manifest_abc (main (world_of [] []) args_free w_stale).2
           ltac:(intros o p Hprefix Hne [x Hx];
                 unfold w_stale in Hx; cbn [files] in Hx;
                 apply lookup_singleton_Some in Hx as [<- _];
                 destruct o; [set_solver|];
                 destruct Hprefix as [k Hk]; discriminate Hk)
           ltac:(vm_compute; reflexivity) HTML ["out"; "html"; "c.html"]).
  - by exists ["c.html"].
  - vm_compute. by eexists.
Defined.

(** The file of the earlier run is gone after the run. *)
Example stale_file_removed :
  files w_stale !! ["out"; "html"; "old.html"] = Some "stale"
  ∧ files (main (world_of [] []) args_free w_stale).2 !! ["out"; "html"; "old.html"]
    = None.
Proof. vm_compute. done. Qed.

Lemma main_persists_urls_txt_witness :
  ∃ now content,
    requests_get (world_of [] []) now (sitemap_url_of args_free) = Some content
    ∧ files (main (world_of [] []) args_free w0).2
        !! (PyPath.of_string (arg_output args_free) // "urls.txt")
      = Some (urls_txt (read_sitemap (parse_xml (world_of [] []) content)).1).
Proof.
  apply (main_persists_urls_txt (world_of [] []) args_free w0 manifest_abc).
  vm_compute. reflexivity.
Defined.

End MoreConcreteRuns.
